(** * A file-storage HTTP service: model and verified properties

    The development follows the layout of the program:
    - [JS]: the JavaScript values and string methods the program uses;
    - [PathValidator]: classes/PathValidator.js;
    - [Path]: Node's [path.join], POSIX flavour;
    - [Fs]: the part of Node's [fs.promises] the program calls, over a tree
      of files and directories;
    - [FileManager]: classes/FileManager.js;
    - [ResponseFormatter]: classes/ResponseFormatter.js;
    - [RequestHandler]: classes/RequestHandler.js;
    - [Server]: the request callback of server.js.

    Strings are sequences of characters with codes below 256.  Writing a
    string as UTF-8 and reading it back is taken to be the identity, which is
    the case for the well-formed text a URL decoder produces.  A request is
    handled without interleaving with other requests; logging to the console
    is not modelled. *)

From stdpp Require Import gmap strings list fin_maps.
From Stdlib Require Import Ascii String.

Local Open Scope stdpp_scope.

(* ===================================================================== *)
(** * JavaScript values and string methods *)
(* ===================================================================== *)

Module JS.

(** The values that reach the program's parameters: a query parameter parsed
    by [url.parse(_, true)] is absent ([undefined]), a string, or, when the
    key is repeated, an array of strings. *)
Inductive jsval : Type :=
| JUndefined
| JStr (s : string)
| JArr (l : list string).

(** The line feed and the double quote, as one-character strings. *)
Definition newline : string := String "010"%char EmptyString.
Definition dquote : string := String "034"%char EmptyString.

(** [Array.prototype.join] with a separator. *)
Fixpoint join (sep : string) (l : list string) : string :=
  match l with
  | [] => ""
  | [x] => x
  | x :: rest => x +:+ sep +:+ join sep rest
  end.

(** ToString, as applied by [text + '\n'] and by a template literal. *)
Definition toString (v : jsval) : string :=
  match v with
  | JUndefined => "undefined"
  | JStr s => s
  | JArr l => join "," l
  end.

(** ToBoolean: what [!v] negates.  Every array is truthy. *)
Definition truthy (v : jsval) : bool :=
  match v with
  | JUndefined => false
  | JStr s => negb (String.eqb s "")
  | JArr _ => true
  end.

(** [s.startsWith(p)] *)
Definition startsWith (p s : string) : bool := String.prefix p s.

(** [s.includes(sub)] *)
Fixpoint includes (sub s : string) : bool :=
  String.prefix sub s ||
  match s with
  | EmptyString => false
  | String _ s' => includes sub s'
  end.

(** [s.endsWith(suf)] *)
Fixpoint endsWith (suf s : string) : bool :=
  String.eqb s suf ||
  match s with
  | EmptyString => false
  | String _ s' => endsWith suf s'
  end.

(** White space in the sense of [String.prototype.trim], restricted to the
    characters below 256: TAB, LF, VT, FF, CR, SPACE and NBSP. *)
Definition is_white (c : ascii) : bool :=
  match c with
  | "009" | "010" | "011" | "012" | "013" | " " | "160" => true
  | _ => false
  end%char.

Fixpoint trimStart (s : string) : string :=
  match s with
  | EmptyString => EmptyString
  | String c s' => if is_white c then trimStart s' else s
  end.

Fixpoint trimEnd (s : string) : string :=
  match s with
  | EmptyString => EmptyString
  | String c s' =>
      match trimEnd s' with
      | EmptyString => if is_white c then EmptyString else String c EmptyString
      | r => String c r
      end
  end.

(** [s.trim()] *)
Definition trim (s : string) : string := trimEnd (trimStart s).

(** [s.split(sep)] for a non-empty separator [sep]: [skip] counts the
    characters of a separator still to be passed over, [cur] is the piece
    being collected. *)
Fixpoint split_go (sep : string) (skip : nat) (cur : string) (s : string)
  : list string :=
  match s with
  | EmptyString => [cur]
  | String c s' =>
      match skip with
      | S k => split_go sep k cur s'
      | O =>
          if String.prefix sep s
          then cur :: split_go sep (String.length sep - 1) "" s'
          else split_go sep 0 (cur +:+ String c "") s'
      end
  end.

Definition split (sep s : string) : list string := split_go sep 0 "" s.

End JS.

(* ===================================================================== *)
(** * classes/PathValidator.js *)
(* ===================================================================== *)

Module PathValidator.
Import JS.

(** The character class [[a-zA-Z0-9_\-\.]]. *)
Definition in_class (c : ascii) : bool :=
  ((("a" <=? c) && (c <=? "z")) ||
   (("A" <=? c) && (c <=? "Z")) ||
   (("0" <=? c) && (c <=? "9")) ||
   (c =? "_") || (c =? "-") || (c =? "."))%char.

Fixpoint all_in_class (s : string) : bool :=
  match s with
  | EmptyString => true
  | String c s' => in_class c && all_in_class s'
  end.

(** [/^[a-zA-Z0-9_\-\.]+$/.test(s)]: one or more characters, all of the
    class, from the start of the input to its end. *)
Definition validPattern_test (s : string) : bool :=
  negb (String.eqb s "") && all_in_class s.

Definition isValidFilename (filename : jsval) : bool :=
  match filename with
  | JStr s =>
      if negb (truthy filename) then false
      else if includes ".." s || includes "/" s || includes "\" s then false
      else if negb (endsWith ".txt" s) then false
      else if negb (validPattern_test s) then false
      else true
  | _ => false  (* !filename, or typeof filename !== 'string' *)
  end.

Definition sanitizeFilename (filename : string) : string := trim filename.

End PathValidator.

(* ===================================================================== *)
(** * Node's [path.join] (POSIX) *)
(* ===================================================================== *)

Module Path.

(** A normalized path in segment form: the string Node returns is the
    segments joined by ['/'], after a leading ['/'] when [absolute], and
    ['.'] for the relative path without segments.  (A trailing separator,
    which [normalize] keeps, is not recorded.) *)
Record path : Type := mkPath { absolute : bool; segments : list string }.

(** The pieces of a string between its ['/'] characters. *)
Fixpoint pieces (s : string) : list string :=
  match s with
  | EmptyString => [""]
  | String c s' =>
      if (c =? "/")%char then "" :: pieces s'
      else match pieces s' with
           | p :: ps => String c p :: ps
           | [] => [String c ""]
           end
  end.

(** One step of [normalizeString]: [st] holds the segments kept so far,
    the last one first. *)
Definition norm_step (allowAboveRoot : bool) (st : list string) (seg : string)
  : list string :=
  if String.eqb seg "" || String.eqb seg "." then st
  else if String.eqb seg ".." then
    match st with
    | top :: st' =>
        if String.eqb top ".."
        then (if allowAboveRoot then ".." :: st else st)
        else st'
    | [] => if allowAboveRoot then [".."] else []
    end
  else seg :: st.

Definition normalizeString (allowAboveRoot : bool) (s : string) : list string :=
  rev (fold_left (norm_step allowAboveRoot) (pieces s) []).

Definition isAbsolute (s : string) : bool :=
  match s with
  | String c _ => (c =? "/")%char
  | EmptyString => false
  end.

(** [path.normalize(s)] *)
Definition normalize (s : string) : path :=
  {| absolute := isAbsolute s;
     segments := normalizeString (negb (isAbsolute s)) s |}.

(** [path.join(a, b)]: the non-empty arguments joined by ['/'], normalized. *)
Definition join (a b : string) : path :=
  normalize
    (if String.eqb a "" then b
     else if String.eqb b "" then a
     else a +:+ "/" +:+ b).

(** A single ordinary segment: not empty, not [.], not [..], without a
    separator. *)
Definition plain (f : string) : Prop :=
  f <> "" /\ f <> "." /\ f <> ".." /\ JS.includes "/" f = false.

End Path.

(* ===================================================================== *)
(** * The response object of Node's [http] *)
(* ===================================================================== *)

Module Http.

Record response : Type := mkResponse {
  statusCode : nat;
  headers : gmap string string;
  body : string;
  finished : bool
}.

(** The response object a request callback receives. *)
Definition fresh : response :=
  {| statusCode := 200; headers := ∅; body := ""; finished := false |}.

(** [res.setHeader(name, value)] *)
Definition setHeader (name value : string) (r : response) : response :=
  {| statusCode := statusCode r;
     headers := <[name := value]> (headers r);
     body := body r;
     finished := finished r |}.

(** [res.writeHead(status, hs)]: the headers of [hs] are merged over the
    ones set before. *)
Definition writeHead (status : nat) (hs : gmap string string) (r : response)
  : response :=
  {| statusCode := status;
     headers := hs ∪ headers r;
     body := body r;
     finished := finished r |}.

(** [res.end(data)] *)
Definition end_ (data : string) (r : response) : response :=
  {| statusCode := statusCode r;
     headers := headers r;
     body := body r +:+ data;
     finished := true |}.

End Http.

(* ===================================================================== *)
(** * The state a request runs in, and the monad of its effects *)
(* ===================================================================== *)

Module Run.

(** A location is the list of names from the root directory. *)
Abbreviation loc := (list string).

Inductive node : Type :=
| File (content : string)
| Dir.

(** The calls made to the file system, in order. *)
Inductive call : Type :=
| Mkdir (l : loc)
| AppendFile (l : loc) (data : string)
| Access (l : loc)
| ReadFile (l : loc).

Definition call_loc (c : call) : loc :=
  match c with
  | Mkdir l | AppendFile l _ | Access l | ReadFile l => l
  end.

Record world : Type := mkWorld {
  cwd : loc;                      (* the process's working directory *)
  tree : gmap (list string) node; (* what exists below the root *)
  calls : list call;              (* the file-system calls made so far *)
  res : Http.response             (* the response of the request in flight *)
}.

Definition with_tree (t : gmap (list string) node) (c : call) (w : world)
  : world :=
  {| cwd := cwd w; tree := t; calls := calls w ++ [c]; res := res w |}.

Definition with_res (r : Http.response) (w : world) : world :=
  {| cwd := cwd w; tree := tree w; calls := calls w; res := r |}.

(** What a rejected promise or a [throw] carries. *)
Inductive exn : Type :=
| EEXIST | ENOTDIR | EISDIR | ENOENT.

Inductive outcome (A : Type) : Type :=
| Ok (a : A)
| Throw (e : exn).
Arguments Ok {A} a.
Arguments Throw {A} e.

Definition io (A : Type) : Type := world -> outcome A * world.

Definition ret {A} (a : A) : io A := fun w => (Ok a, w).

Definition throw {A} (e : exn) : io A := fun w => (Throw e, w).

Definition bind {A B} (m : io A) (k : A -> io B) : io B :=
  fun w =>
    match m w with
    | (Ok a, w') => k a w'
    | (Throw e, w') => (Throw e, w')
    end.

(** [try { m } catch (error) { h error }]: the handler runs in the state
    the body left. *)
Definition try_catch {A} (m : io A) (h : exn -> io A) : io A :=
  fun w =>
    match m w with
    | (Ok a, w') => (Ok a, w')
    | (Throw e, w') => h e w'
    end.

(** A method of the response object, applied to the response in flight. *)
Definition on_res (f : Http.response -> Http.response) : io unit :=
  fun w => (Ok tt, with_res (f (res w)) w).

End Run.

Notation "x <- m ;; k" := (Run.bind m (fun x => k))
  (at level 100, m at next level, right associativity).
Notation "m ;; k" := (Run.bind m (fun _ => k))
  (at level 100, right associativity).

(* ===================================================================== *)
(** * Node's [fs.promises], as far as the program calls it *)
(* ===================================================================== *)

Module Fs.
Import Run.

(** The location a path denotes: a relative path starts at the working
    directory.  Symbolic links and permissions are outside the model. *)
Definition locate (cwd : loc) (p : Path.path) : loc :=
  if Path.absolute p then Path.segments p
  else rev (fold_left (Path.norm_step false) (Path.segments p) (rev cwd)).

(** The root directory always exists. *)
Definition node_at (t : gmap (list string) node) (l : loc) : option node :=
  match l with
  | [] => Some Dir
  | _ => t !! l
  end.

(** The content of the regular file at [l], if there is one. *)
Definition file_at (t : gmap (list string) node) (l : loc) : option string :=
  match t !! l with
  | Some (File c) => Some c
  | _ => None
  end.

(** No regular file stands at [pre ++ rest] or between it and [pre]. *)
Fixpoint clear_from (t : gmap (list string) node) (pre rest : loc) : bool :=
  match rest with
  | [] => true
  | name :: rest' =>
      match file_at t (pre ++ [name]) with
      | Some _ => false
      | None => clear_from t (pre ++ [name]) rest'
      end
  end.

(** No regular file stands at [l] or above it: [l] is a directory, or can
    be created as one. *)
Definition clear_way (t : gmap (list string) node) (l : loc) : bool :=
  clear_from t [] l.

(** [mkdir -p]: walks from [pre] down the names of [rest], creating the
    directories that are missing; a regular file on the way is an error. *)
Fixpoint mkdirp (t : gmap (list string) node) (pre rest : loc)
  : outcome unit * gmap (list string) node :=
  match rest with
  | [] => (Ok tt, t)
  | name :: rest' =>
      let here := pre ++ [name] in
      match t !! here with
      | Some (File _) =>
          (Throw (match rest' with [] => EEXIST | _ => ENOTDIR end), t)
      | Some Dir => mkdirp t here rest'
      | None => mkdirp (<[here := Dir]> t) here rest'
      end
  end.

(** [fs.mkdir(dir, { recursive: true })] *)
Definition mkdir (dir : string) : io unit :=
  fun w =>
    let l := locate (cwd w) (Path.normalize dir) in
    let '(r, t') := mkdirp (tree w) [] l in
    (r, with_tree t' (Mkdir l) w).

(** [fs.appendFile(p, data, 'utf8')]: the file is created when absent; its
    directory must exist. *)
Definition appendFile (p : Path.path) (data : string) : io unit :=
  fun w =>
    let l := locate (cwd w) p in
    let t := tree w in
    let fail e := (Throw e, with_tree t (AppendFile l data) w) in
    match l with
    | [] => fail EISDIR
    | _ =>
        match node_at t (removelast l) with
        | None => fail ENOENT
        | Some (File _) => fail ENOTDIR
        | Some Dir =>
            match t !! l with
            | Some Dir => fail EISDIR
            | Some (File c) =>
                (Ok tt, with_tree (<[l := File (c +:+ data)]> t)
                                  (AppendFile l data) w)
            | None =>
                (Ok tt, with_tree (<[l := File data]> t)
                                  (AppendFile l data) w)
            end
        end
    end.

(** [fs.access(p)]: resolves when something exists at [p]. *)
Definition access (p : Path.path) : io unit :=
  fun w =>
    let l := locate (cwd w) p in
    let w' := with_tree (tree w) (Access l) w in
    match node_at (tree w) l with
    | Some _ => (Ok tt, w')
    | None => (Throw ENOENT, w')
    end.

(** [fs.readFile(p, 'utf8')] *)
Definition readFile (p : Path.path) : io string :=
  fun w =>
    let l := locate (cwd w) p in
    let w' := with_tree (tree w) (ReadFile l) w in
    match node_at (tree w) l with
    | Some (File c) => (Ok c, w')
    | Some Dir => (Throw EISDIR, w')
    | None => (Throw ENOENT, w')
    end.

End Fs.

(* ===================================================================== *)
(** * classes/FileManager.js *)
(* ===================================================================== *)

Module FileManager.
Import JS Run.

Record t : Type := new { baseDir : string }.

Definition _getFullPath (this : t) (filename : string) : Path.path :=
  Path.join (baseDir this) filename.

(** Where the storage directory and a file of the store are, for a process
    working in [cwd]. *)
Definition baseLoc (this : t) (cwd : loc) : loc :=
  Fs.locate cwd (Path.normalize (baseDir this)).

Definition fileLoc (this : t) (cwd : loc) (filename : string) : loc :=
  Fs.locate cwd (_getFullPath this filename).

(** A call that creates the storage directory or works on a file directly
    inside it. *)
Definition stays_inside (base : loc) (c : call) : Prop :=
  c = Mkdir base \/ exists f, Path.plain f /\ call_loc c = base ++ [f].

Definition appendToFile (this : t) (filename : string) (text : jsval)
  : io unit :=
  let fullPath := _getFullPath this filename in
  try_catch
    (Fs.mkdir (baseDir this) ;;
     Fs.appendFile fullPath (toString text +:+ newline))
    (fun error => throw error).

Definition fileExists (this : t) (filename : string) : io bool :=
  let fullPath := _getFullPath this filename in
  try_catch
    (Fs.access fullPath ;; ret true)
    (fun _ => ret false).

(** [None] is the [null] the method returns for a file that does not
    exist. *)
Definition readFile (this : t) (filename : string) : io (option string) :=
  let fullPath := _getFullPath this filename in
  try_catch
    (exists_ <- fileExists this filename ;;
     if negb exists_ then ret None
     else
       content <- Fs.readFile fullPath ;;
       ret (Some content))
    (fun error => throw error).

End FileManager.

(* ===================================================================== *)
(** * classes/ResponseFormatter.js *)
(* ===================================================================== *)

Module ResponseFormatter.
Import JS Run.

Definition sendSuccess (data : string) (contentType : option string)
  : io unit :=
  let contentType := default "text/plain" contentType in
  on_res (Http.writeHead 200
            (<["Content-Type" := contentType]>
               (<["Access-Control-Allow-Origin" := "*"]> ∅))) ;;
  on_res (Http.end_ data).

Definition sendError (statusCode : nat) (message : string) : io unit :=
  on_res (Http.writeHead statusCode
            (<["Content-Type" := "text/plain"]>
               (<["Access-Control-Allow-Origin" := "*"]> ∅))) ;;
  on_res (Http.end_ message).

Definition send404 (filename : string) : io unit :=
  let message := "Error 404: File '" +:+ filename +:+ "' not found" in
  sendError 404 message.

Definition sendWriteSuccess (text : jsval) : io unit :=
  let message :=
    "Successfully appended: " +:+ dquote +:+ toString text +:+ dquote in
  sendSuccess message None.

(** The response each method above leaves behind: the head with the two
    headers, then the body. *)
Definition reply (statusCode : nat) (contentType data : string)
  (r : Http.response) : Http.response :=
  Http.end_ data
    (Http.writeHead statusCode
       (<["Content-Type" := contentType]>
          (<["Access-Control-Allow-Origin" := "*"]> ∅)) r).

End ResponseFormatter.

(* ===================================================================== *)
(** * classes/RequestHandler.js *)
(* ===================================================================== *)

Module RequestHandler.
Import JS Run.

(** [queryParams.text]: the query object has no prototype, so a key that
    is absent reads as [undefined]. *)
Definition prop (o : gmap string jsval) (key : string) : jsval :=
  default JUndefined (o !! key).

Definition handleWriteRequest (fileManager : FileManager.t)
  (queryParams : gmap string jsval) : io unit :=
  try_catch
    (let text := prop queryParams "text" in
     if negb (truthy text) then
       ResponseFormatter.sendError 400
         ("Bad Request: Missing " +:+ dquote +:+ "text" +:+ dquote
          +:+ " parameter")
     else
       let filename := "file.txt" in
       if negb (PathValidator.isValidFilename (JStr filename)) then
         ResponseFormatter.sendError 400 "Invalid filename"
       else
         FileManager.appendToFile fileManager filename text ;;
         ResponseFormatter.sendWriteSuccess text)
    (fun _ =>
       ResponseFormatter.sendError 500
         "Internal Server Error: Could not write to file").

(** The file name is the string the router cut out of the URL, or
    [undefined] ([None]). *)
Definition handleReadRequest (fileManager : FileManager.t)
  (filename : option string) : io unit :=
  try_catch
    (match filename with
     | None | Some EmptyString =>
         ResponseFormatter.sendError 400 "Bad Request: No filename provided"
     | Some filename =>
         let sanitizedFilename := PathValidator.sanitizeFilename filename in
         if negb (PathValidator.isValidFilename (JStr sanitizedFilename)) then
           ResponseFormatter.sendError 400 "Bad Request: Invalid filename"
         else
           content <- FileManager.readFile fileManager sanitizedFilename ;;
           match content with
           | None => ResponseFormatter.send404 sanitizedFilename
           | Some content =>
               ResponseFormatter.sendSuccess content
                 (Some "text/plain; charset=utf-8")
           end
     end)
    (fun _ =>
       ResponseFormatter.sendError 500
         "Internal Server Error: Could not read file").

End RequestHandler.

(* ===================================================================== *)
(** * server.js: the request callback *)
(* ===================================================================== *)

Module Server.
Import JS Run.

(** A request after [url.parse(req.url, true)]. *)
Record request : Type := mkRequest {
  method : string;
  pathname : string;
  query : gmap string jsval
}.

Definition endpoint_not_found : string :=
  "Endpoint not found. Available endpoints:" +:+ newline +:+
  "- /COMP4537/labs/3/writeFile/?text=YourText" +:+ newline +:+
  "- /COMP4537/labs/3/readFile/file.txt".

Definition callback (fileManager : FileManager.t) (req : request) : io unit :=
  let pathname := pathname req in
  let query := query req in
  on_res (Http.setHeader "Access-Control-Allow-Origin" "*") ;;
  on_res (Http.setHeader "Access-Control-Allow-Methods" "GET, POST, OPTIONS") ;;
  if String.eqb (method req) "OPTIONS" then
    on_res (Http.writeHead 204 ∅) ;;
    on_res (Http.end_ "")
  else
    try_catch
      (if String.eqb pathname "/COMP4537/labs/3/writeFile/"
          || String.eqb pathname "/COMP4537/labs/3/writeFile" then
         RequestHandler.handleWriteRequest fileManager query
       else if startsWith "/COMP4537/labs/3/readFile/" pathname then
         let filename := split "/COMP4537/labs/3/readFile/" pathname !! 1 in
         RequestHandler.handleReadRequest fileManager filename
       else
         ResponseFormatter.sendError 404 endpoint_not_found)
      (fun _ => ResponseFormatter.sendError 500 "Internal Server Error").

(** Serving one request: the callback runs on a fresh response object. *)
Definition serve (fileManager : FileManager.t) (req : request) (w : world)
  : world :=
  snd (callback fileManager req (with_res Http.fresh w)).

End Server.

(* ===================================================================== *)
(** * server.js: configuration and wiring *)
(* ===================================================================== *)

Module Config.
Import JS.

(** The string Node returns for a path in segment form. *)
Definition format (p : Path.path) : string :=
  match Path.segments p with
  | [] => if Path.absolute p then "/" else "."
  | segs => (if Path.absolute p then "/" else "") +:+ join "/" segs
  end.

(** [path.join(__dirname, 'files')], for the directory [dirname] that holds
    server.js. *)
Definition FILES_DIR (dirname : string) : string :=
  format (Path.join dirname "files").

(** [new FileManager(FILES_DIR)]; the request handler is built around it. *)
Definition fileManager (dirname : string) : FileManager.t :=
  FileManager.new (FILES_DIR dirname).

End Config.

(* ===================================================================== *)
(** * Notions used to state what requests do to the store *)
(* ===================================================================== *)

Module Store.
Import JS Run.

(** [t'] keeps what [t] holds: a directory is still a directory, and a
    regular file still exists with its old content in front. *)
Definition keeps (t t' : gmap (list string) node) : Prop :=
  forall l,
    match t !! l with
    | Some Dir => t' !! l = Some Dir
    | Some (File c) => exists more, t' !! l = Some (File (c +:+ more))
    | None => True
    end.

(** The state a handler starts in: a fresh response object on which the
    callback has set its two headers. *)
Definition prepared (w : world) : world :=
  with_res
    (Http.setHeader "Access-Control-Allow-Methods" "GET, POST, OPTIONS"
       (Http.setHeader "Access-Control-Allow-Origin" "*" Http.fresh)) w.

(** Every character of [s] is white space. *)
Fixpoint all_white (s : string) : bool :=
  match s with
  | EmptyString => true
  | String c s' => is_white c && all_white s'
  end.

(** The lines a sequence of appended texts leaves in a file. *)
Fixpoint lines (texts : list jsval) : string :=
  match texts with
  | [] => ""
  | text :: rest => toString text +:+ newline +:+ lines rest
  end.

(** Appending each text of a list in turn, as successive calls of
    [appendToFile] do. *)
Fixpoint appendAll (fm : FileManager.t) (filename : string)
  (texts : list jsval) : io unit :=
  match texts with
  | [] => ret tt
  | text :: rest =>
      FileManager.appendToFile fm filename text ;;
      appendAll fm filename rest
  end.

End Store.

(* ===================================================================== *)
(** * The filename policy in the words of the specification *)
(* ===================================================================== *)

Module Policy.

(** [s] contains [sub]. *)
Definition contains (sub s : string) : Prop :=
  exists a b, s = a +:+ sub +:+ b.

(** [s] ends in [suf]. *)
Definition ends_in (suf s : string) : Prop :=
  exists a, s = a +:+ suf.

(** [c] occurs in [s]. *)
Definition occurs (c : ascii) (s : string) : Prop :=
  In c (list_ascii_of_string s).

(** The set [[A-Za-z0-9_.-]], by character codes. *)
Definition allowed (c : ascii) : Prop :=
  let n := N_of_ascii c in
  (65 <= n <= 90 \/ 97 <= n <= 122 \/ 48 <= n <= 57
   \/ n = 95 \/ n = 46 \/ n = 45)%N.

(** The names the policy rejects: the name, after trimming, is empty or not
    a string, contains [..], [/] or [\], does not end in [.txt], or has a
    character outside the allowed set.  [None] is a name that is not a
    string. *)
Definition rejects (f : option string) : Prop :=
  match f with
  | None => True
  | Some f =>
      let s := JS.trim f in
      s = ""
      \/ contains ".." s \/ contains "/" s \/ contains "\" s
      \/ ~ ends_in ".txt" s
      \/ exists c, occurs c s /\ ~ allowed c
  end.

End Policy.

(* ===================================================================== *)
(** * A sample deployment, for the concrete instances below *)
(* ===================================================================== *)

Module Sample.
Import JS Run.

Definition fm : FileManager.t := FileManager.new "/srv/lab3/files".

Definition w0 : world :=
  {| cwd := ["srv"; "lab3"]; tree := ∅; calls := []; res := Http.fresh |}.

Definition write (text : string) : Server.request :=
  Server.mkRequest "GET" "/COMP4537/labs/3/writeFile/" {[ "text" := JStr text ]}.

Definition read (name : string) : Server.request :=
  Server.mkRequest "GET" ("/COMP4537/labs/3/readFile/" +:+ name) ∅.

(** A repeated key: [?text=a&text=b]. *)
Definition write_twice_keyed : Server.request :=
  Server.mkRequest "GET" "/COMP4537/labs/3/writeFile"
    {[ "text" := JArr ["a"; "b"] ]}.

(** A store in which a directory stands where the file should be. *)
Definition w_dir : world :=
  {| cwd := ["srv"; "lab3"];
     tree := <[ ["srv"; "lab3"; "files"; "file.txt"] := Dir ]>
             (<[ ["srv"; "lab3"; "files"] := Dir ]>
             (<[ ["srv"; "lab3"] := Dir ]>
             (<[ ["srv"] := Dir ]> ∅)));
     calls := [];
     res := Http.fresh |}.

(** A repeated key whose values are all empty: [?text=&text=]. *)
Definition write_empty_twice : Server.request :=
  Server.mkRequest "GET" "/COMP4537/labs/3/writeFile"
    {[ "text" := JArr [""; ""] ]}.

(** A store in which a regular file stands where the storage directory
    should be. *)
Definition w_blocked : world :=
  {| cwd := ["srv"; "lab3"];
     tree := <[ ["srv"; "lab3"; "files"] := File "in the way" ]>
             (<[ ["srv"; "lab3"] := Dir ]>
             (<[ ["srv"] := Dir ]> ∅));
     calls := [];
     res := Http.fresh |}.

(** A store whose file already has two lines. *)
Definition w_stored : world :=
  {| cwd := ["srv"; "lab3"];
     tree := <[ ["srv"; "lab3"; "files"; "file.txt"]
                := File ("one" +:+ newline +:+ "two" +:+ newline) ]>
             (<[ ["srv"; "lab3"; "files"] := Dir ]>
             (<[ ["srv"; "lab3"] := Dir ]>
             (<[ ["srv"] := Dir ]> ∅)));
     calls := [];
     res := Http.fresh |}.

(** A read request whose path names the read prefix twice. *)
Definition read_twice_prefixed : Server.request :=
  Server.mkRequest "GET"
    ("/COMP4537/labs/3/readFile/" +:+ "file.txt" +:+
     "/COMP4537/labs/3/readFile/" +:+ "ignored") ∅.

(** A store that already holds another file. *)
Definition w_other : world :=
  {| cwd := ["srv"; "lab3"];
     tree := <[ ["srv"; "lab3"; "files"; "other.txt"] := File "kept" ]>
             (<[ ["srv"; "lab3"; "files"] := Dir ]>
             (<[ ["srv"; "lab3"] := Dir ]>
             (<[ ["srv"] := Dir ]> ∅)));
     calls := [];
     res := Http.fresh |}.

End Sample.

(* ===================================================================== *)
(** * The model on concrete inputs *)
(* ===================================================================== *)

Example split_ex :
  JS.split "/r/" "/r/a/r/b" = [""; "a"; "b"]
  /\ JS.split "/r/" "/r/" = [""; ""]
  /\ JS.split "/r/" "/r/file.txt" = [""; "file.txt"].
Proof. repeat split; reflexivity. Qed.

Example trim_ex :
  JS.trim "  a b  " = "a b" /\ JS.trim "   " = "" /\ JS.trim "x" = "x".
Proof. repeat split; reflexivity. Qed.

Example valid_ex :
  PathValidator.isValidFilename (JS.JStr "file.txt") = true
  /\ PathValidator.isValidFilename (JS.JStr "a..txt") = false
  /\ PathValidator.isValidFilename (JS.JStr "a/b.txt") = false
  /\ PathValidator.isValidFilename (JS.JStr "a.txt ") = false
  /\ PathValidator.isValidFilename (JS.JStr "a.TXT") = false
  /\ PathValidator.isValidFilename (JS.JArr ["a.txt"]) = false.
Proof. repeat split; reflexivity. Qed.

Example path_join_ex :
  Path.join "/srv/lab3/files" "file.txt"
    = Path.mkPath true ["srv"; "lab3"; "files"; "file.txt"]
  /\ Path.join "/srv/lab3/files" "../x.txt"
    = Path.mkPath true ["srv"; "lab3"; "x.txt"]
  /\ Path.join "files/" "./a//b" = Path.mkPath false ["files"; "a"; "b"]
  /\ Path.join "" "" = Path.mkPath false []
  /\ Path.join "a" "../../b" = Path.mkPath false [".."; "b"].
Proof. vm_compute. repeat split; reflexivity. Qed.

Example write_then_read :
  let w1 := Server.serve Sample.fm (Sample.write "BCIT") Sample.w0 in
  let w2 := Server.serve Sample.fm (Sample.read "file.txt") w1 in
  Http.statusCode (Run.res w1) = 200
  /\ Http.body (Run.res w1)
     = "Successfully appended: " +:+ JS.dquote +:+ "BCIT" +:+ JS.dquote
  /\ Http.statusCode (Run.res w2) = 200
  /\ Http.body (Run.res w2) = "BCIT" +:+ JS.newline
  /\ Run.tree w2 !! ["srv"; "lab3"; "files"; "file.txt"]
     = Some (Run.File ("BCIT" +:+ JS.newline)).
Proof. vm_compute. repeat split; reflexivity. Qed.

Example read_missing :
  let w1 := Server.serve Sample.fm (Sample.read "nothing.txt") Sample.w0 in
  Http.statusCode (Run.res w1) = 404
  /\ Http.body (Run.res w1) = "Error 404: File 'nothing.txt' not found".
Proof. vm_compute. repeat split; reflexivity. Qed.

Example array_text :
  let w1 := Server.serve Sample.fm Sample.write_twice_keyed Sample.w0 in
  Http.statusCode (Run.res w1) = 200
  /\ Http.body (Run.res w1)
     = "Successfully appended: " +:+ JS.dquote +:+ "a,b" +:+ JS.dquote
  /\ Run.tree w1 !! ["srv"; "lab3"; "files"; "file.txt"]
     = Some (Run.File ("a,b" +:+ JS.newline)).
Proof. vm_compute. repeat split; reflexivity. Qed.

Example directory_in_the_way :
  let w1 := Server.serve Sample.fm (Sample.write "BCIT") Sample.w_dir in
  let w2 := Server.serve Sample.fm (Sample.read "file.txt") Sample.w_dir in
  Http.statusCode (Run.res w1) = 500
  /\ Http.body (Run.res w1) = "Internal Server Error: Could not write to file"
  /\ Run.tree w1 !! ["srv"; "lab3"; "files"; "file.txt"] = Some Run.Dir
  /\ Http.statusCode (Run.res w2) = 500
  /\ Http.body (Run.res w2) = "Internal Server Error: Could not read file".
Proof. vm_compute. repeat split; reflexivity. Qed.

Example routing :
  let get p := Server.serve Sample.fm (Server.mkRequest "GET" p ∅) Sample.w0 in
  Http.statusCode (Run.res (get "/COMP4537/labs/3/writeFile")) = 400
  /\ Http.statusCode (Run.res (get "/COMP4537/labs/3/readFile/")) = 400
  /\ Http.statusCode (Run.res (get "/COMP4537/labs/3/readFile/../x.txt")) = 400
  /\ Http.statusCode (Run.res (get "/COMP4537/labs/3/readFile/.txt")) = 404
  /\ Http.statusCode (Run.res (get "/elsewhere")) = 404
  /\ Http.body (Run.res (get "/elsewhere")) = Server.endpoint_not_found.
Proof. vm_compute. repeat split; reflexivity. Qed.

(* ===================================================================== *)
(** * Strings *)
(* ===================================================================== *)

Section StringFacts.
Import JS.

Lemma app_cons (c : ascii) (a b : string) :
  String c a +:+ b = String c (a +:+ b).
Proof. reflexivity. Qed.

Lemma app_empty_r (s : string) : s +:+ "" = s.
Proof. induction s as [|c s IH]; [done|]. by rewrite app_cons, IH. Qed.

Lemma app_assoc_str (a b c : string) : (a +:+ b) +:+ c = a +:+ b +:+ c.
Proof. induction a as [|x a IH]; [done|]. by rewrite !app_cons, IH. Qed.

Lemma prefix_spec (p s : string) :
  String.prefix p s = true <-> exists b, s = p +:+ b.
Proof.
  revert s. induction p as [|c p IH]; intros s.
  - split; [intros _; by exists s | by destruct s].
  - destruct s as [|d s]; simpl.
    + split; [done | intros [b Hb]; discriminate Hb].
    + destruct (ascii_dec c d) as [->|Hne].
      * rewrite IH. split; intros [b Hb]; exists b.
        -- by rewrite Hb.
        -- by injection Hb.
      * split; [done | intros [b Hb]; injection Hb; congruence].
Qed.

Lemma includes_spec (sub s : string) :
  includes sub s = true <-> Policy.contains sub s.
Proof.
  unfold Policy.contains. induction s as [|c s IH].
  - cbn [includes]. rewrite orb_false_r, prefix_spec. split.
    + intros [b Hb]. by exists "", b.
    + intros [a [b Hab]]. destruct a; [by exists b | discriminate Hab].
  - cbn [includes]. rewrite orb_true_iff, IH, prefix_spec. split.
    + intros [[b Hb] | [a [b Hab]]].
      * by exists "", b.
      * exists (String c a), b. by rewrite Hab.
    + intros [a [b Hab]]. destruct a as [|d a].
      * left. by exists b.
      * right. exists a, b. by injection Hab.
Qed.

Lemma endsWith_spec (suf s : string) :
  endsWith suf s = true <-> Policy.ends_in suf s.
Proof.
  unfold Policy.ends_in. induction s as [|c s IH].
  - cbn [endsWith]. rewrite orb_false_r, String.eqb_eq. split.
    + intros <-. by exists "".
    + intros [a Ha]. destruct a; [done | discriminate Ha].
  - cbn [endsWith]. rewrite orb_true_iff, IH, String.eqb_eq. split.
    + intros [<- | [a Ha]].
      * by exists "".
      * exists (String c a). by rewrite Ha.
    + intros [a Ha]. destruct a as [|d a].
      * by left.
      * right. exists a. by injection Ha.
Qed.

Lemma trimEnd_id (s : string) :
  (forall c, Policy.occurs c s -> is_white c = false) -> trimEnd s = s.
Proof.
  unfold Policy.occurs. induction s as [|c s IH]; intros Hs; [done|].
  cbn [trimEnd]. rewrite IH by (intros d Hd; apply Hs; by right).
  rewrite (Hs c) by (by left). by destruct s.
Qed.

Lemma trim_id (s : string) :
  (forall c, Policy.occurs c s -> is_white c = false) -> trim s = s.
Proof.
  intros Hs. unfold trim.
  assert (trimStart s = s) as ->; [|by apply trimEnd_id].
  destruct s as [|c s]; [done|]. cbn [trimStart].
  by rewrite (Hs c) by (by left).
Qed.

End StringFacts.

(* ===================================================================== *)
(** * The filename policy *)
(* ===================================================================== *)

Section PolicyFacts.
Import JS PathValidator.

Lemma in_class_spec (c : ascii) : in_class c = true <-> Policy.allowed c.
Proof.
  destruct c as [[] [] [] [] [] [] [] []]; unfold Policy.allowed; cbn;
    (split; intros H; [try discriminate H; lia | ]);
    first [reflexivity | exfalso; lia].
Qed.

Lemma in_class_not_white (c : ascii) : in_class c = true -> is_white c = false.
Proof.
  destruct c as [[] [] [] [] [] [] [] []]; cbn; intros H;
    first [reflexivity | discriminate H].
Qed.

Lemma all_in_class_true (s : string) :
  all_in_class s = true <-> forall c, Policy.occurs c s -> Policy.allowed c.
Proof.
  unfold Policy.occurs. induction s as [|c s IH]; cbn.
  - split; [intros _ d [] | done].
  - rewrite andb_true_iff, IH, in_class_spec. split.
    + intros [Hc Hs] d [<- | Hd]; auto.
    + intros H. split; [apply H; by left | intros d Hd; apply H; by right].
Qed.

Lemma all_in_class_false (s : string) :
  all_in_class s = false
  <-> exists c, Policy.occurs c s /\ ~ Policy.allowed c.
Proof.
  unfold Policy.occurs. induction s as [|c s IH]; cbn.
  - split; [done | intros [d [[] _]]].
  - rewrite andb_false_iff, IH. split.
    + intros [Hc | [d [Hd Hn]]].
      * exists c. split; [by left|]. rewrite <- in_class_spec. congruence.
      * exists d. split; [by right | done].
    + intros [d [[<- | Hd] Hn]].
      * left. rewrite <- in_class_spec in Hn. by destruct (in_class c).
      * right. by exists d.
Qed.

(** What the validator accepts, clause by clause. *)
Lemma isValidFilename_true (s : string) :
  isValidFilename (JStr s) = true <->
  s <> "" /\ includes ".." s = false /\ includes "/" s = false
  /\ includes "\" s = false /\ endsWith ".txt" s = true
  /\ all_in_class s = true.
Proof.
  unfold isValidFilename, validPattern_test, truthy.
  destruct (String.eqb_spec s "") as [->|Hne]; cbn.
  - split; [done | by intros [? _]].
  - destruct (includes ".." s), (includes "/" s), (includes "\" s),
      (endsWith ".txt" s), (all_in_class s); cbn; intuition congruence.
Qed.

Lemma isValidFilename_false (s : string) :
  isValidFilename (JStr s) = false <->
  s = ""
  \/ Policy.contains ".." s \/ Policy.contains "/" s \/ Policy.contains "\" s
  \/ ~ Policy.ends_in ".txt" s
  \/ exists c, Policy.occurs c s /\ ~ Policy.allowed c.
Proof.
  rewrite <- !includes_spec, <- endsWith_spec, <- all_in_class_false.
  rewrite <- not_true_iff_false, isValidFilename_true.
  destruct (String.eqb_spec s "") as [->|Hne]; [intuition congruence|].
  destruct (includes ".." s), (includes "/" s), (includes "\" s),
    (endsWith ".txt" s), (all_in_class s); intuition congruence.
Qed.

(** A name the validator accepts is one plain path segment. *)
Lemma valid_plain (s : string) :
  isValidFilename (JStr s) = true ->
  s <> "" /\ s <> "." /\ s <> ".." /\ includes "/" s = false.
Proof.
  rewrite isValidFilename_true. intros (Hne & Hdd & Hs & _ & Htxt & _).
  repeat split; [done | | | done]; intros ->; discriminate.
Qed.

Lemma valid_trim (s : string) :
  isValidFilename (JStr s) = true -> sanitizeFilename s = s.
Proof.
  rewrite isValidFilename_true. intros (_ & _ & _ & _ & _ & Hall).
  apply trim_id. intros c Hc. apply in_class_not_white.
  rewrite in_class_spec. by apply (proj1 (all_in_class_true s) Hall).
Qed.

End PolicyFacts.

(* ===================================================================== *)
(** * Paths *)
(* ===================================================================== *)

Section PathFacts.
Import JS Path.

Lemma pieces_cons (s : string) : exists p ps, pieces s = p :: ps.
Proof.
  induction s as [|c s [p [ps IH]]]; cbn; [by eauto|].
  destruct (c =? "/")%char; [by eauto|]. rewrite IH. by eauto.
Qed.

Lemma pieces_app_slash (a b : string) :
  pieces (a +:+ "/" +:+ b) = pieces a ++ pieces b.
Proof.
  induction a as [|c a IH]; [done|].
  rewrite app_cons. cbn [pieces]. rewrite IH.
  destruct (c =? "/")%char; [done|].
  by destruct (pieces_cons a) as [p [ps ->]].
Qed.

Lemma pieces_plain (f : string) : includes "/" f = false -> pieces f = [f].
Proof.
  induction f as [|c f IH]; [done|].
  cbn [includes pieces]. intros H. apply orb_false_iff in H as [Hc Hf].
  rewrite (IH Hf).
  destruct (Ascii.eqb_spec c "/") as [->|Hne]; [by destruct f|done].
Qed.

Lemma norm_step_plain (allow : bool) (st : list string) (f : string) :
  plain f -> norm_step allow st f = f :: st.
Proof.
  intros (H0 & H1 & H2 & _). unfold norm_step.
  rewrite <- String.eqb_neq in H0, H1, H2. by rewrite H0, H1, H2.
Qed.

Lemma plain_relative (f : string) : plain f -> isAbsolute f = false.
Proof.
  intros (_ & _ & _ & H). destruct f as [|c f]; [done|].
  cbn [isAbsolute]. destruct (Ascii.eqb_spec c "/") as [->|Hne]; [|done].
  cbn [includes] in H. apply orb_false_iff in H as [H _]. by destruct f.
Qed.

Lemma isAbsolute_app (a b : string) :
  a <> "" -> isAbsolute (a +:+ b) = isAbsolute a.
Proof. by destruct a. Qed.

(** Joining a plain name to a directory appends one segment to the
    normalized directory. *)
Lemma join_plain (base f : string) :
  plain f ->
  Path.join base f
  = {| absolute := absolute (normalize base);
       segments := segments (normalize base) ++ [f] |}.
Proof.
  intros Hf. pose proof Hf as (Hne & _ & _ & Hsep). unfold Path.join.
  destruct (String.eqb_spec base "") as [->|Hb].
  - unfold normalize, normalizeString. rewrite (plain_relative f Hf).
    rewrite (pieces_plain f Hsep). cbn. by rewrite norm_step_plain.
  - rewrite (proj2 (String.eqb_neq f "") Hne).
    unfold normalize, normalizeString. cbn [absolute segments].
    rewrite isAbsolute_app by done. f_equal.
    rewrite pieces_app_slash, (pieces_plain f Hsep), fold_left_app. cbn.
    by rewrite norm_step_plain.
Qed.

Lemma locate_snoc (cwd : list string) (a : bool) (segs : list string)
  (f : string) :
  plain f ->
  Fs.locate cwd (mkPath a (segs ++ [f])) = Fs.locate cwd (mkPath a segs) ++ [f].
Proof.
  intros Hf. unfold Fs.locate. cbn. destruct a; [done|].
  rewrite fold_left_app. cbn. by rewrite norm_step_plain.
Qed.

End PathFacts.

(* ===================================================================== *)
(** * The file system *)
(* ===================================================================== *)

Section FsFacts.
Import Run Fs.

Implicit Types (t : gmap (list string) node) (l pre rest : list string).

Lemma file_at_insert_dir t l l' :
  t !! l = None -> file_at (<[l := Dir]> t) l' = file_at t l'.
Proof.
  intros Hl. unfold file_at. destruct (decide (l = l')) as [<-|Hne].
  - by rewrite lookup_insert_eq, Hl.
  - by rewrite lookup_insert_ne.
Qed.

Lemma file_at_insert_file t l c l' :
  l' <> l -> file_at (<[l := File c]> t) l' = file_at t l'.
Proof. intros Hne. unfold file_at. by rewrite lookup_insert_ne. Qed.

(** Creating directories never creates, removes or changes a regular
    file. *)
Lemma mkdirp_file_at rest : forall t pre l,
  file_at (snd (mkdirp t pre rest)) l = file_at t l.
Proof.
  induction rest as [|name rest IH]; intros t pre l; [done|].
  cbn [mkdirp]. destruct (t !! (pre ++ [name])) as [[c|]|] eqn:Hh.
  - done.
  - apply IH.
  - rewrite IH. by apply file_at_insert_dir.
Qed.

(** It touches nothing below the directory it is asked for. *)
Lemma mkdirp_lookup_below rest : forall t pre l,
  List.length (pre ++ rest) < List.length l ->
  snd (mkdirp t pre rest) !! l = t !! l.
Proof.
  induction rest as [|name rest IH]; intros t pre l Hlen; [done|].
  assert (List.length ((pre ++ [name]) ++ rest) < List.length l) as Hlen'.
  { by rewrite <- app_assoc. }
  cbn [mkdirp]. destruct (t !! (pre ++ [name])) as [[c|]|] eqn:Hh.
  - done.
  - by apply IH.
  - rewrite IH by done. apply lookup_insert_ne. intros <-.
    rewrite !length_app in Hlen. cbn in Hlen. lia.
Qed.

Lemma clear_from_agree rest : forall t t' pre,
  (forall l, List.length l <= List.length (pre ++ rest) ->
             file_at t' l = file_at t l) ->
  clear_from t' pre rest = clear_from t pre rest.
Proof.
  induction rest as [|name rest IH]; intros t t' pre Hagree; [done|].
  cbn [clear_from]. rewrite Hagree by (rewrite !length_app; cbn; lia).
  destruct (file_at t (pre ++ [name])); [done|].
  apply IH. intros l Hl. apply Hagree. by rewrite <- app_assoc in Hl.
Qed.

(** [mkdir -p] succeeds exactly when the way is clear. *)
Lemma mkdirp_ok rest : forall t pre,
  fst (mkdirp t pre rest) = Ok tt <-> clear_from t pre rest = true.
Proof.
  induction rest as [|name rest IH]; intros t pre; [done|].
  cbn [mkdirp clear_from]. unfold file_at at 1.
  destruct (t !! (pre ++ [name])) as [[c|]|] eqn:Hh; [done| |].
  - apply IH.
  - rewrite IH. erewrite clear_from_agree; [done|].
    intros l _. by apply file_at_insert_dir.
Qed.

Lemma mkdirp_dir rest : forall t pre,
  rest <> [] ->
  fst (mkdirp t pre rest) = Ok tt ->
  snd (mkdirp t pre rest) !! (pre ++ rest) = Some Dir.
Proof.
  induction rest as [|name rest IH]; intros t pre Hne Hok; [done|].
  cbn [mkdirp] in *. rewrite (cons_middle name pre rest), app_assoc.
  destruct (t !! (pre ++ [name])) as [[c|]|] eqn:Hh; [done| |].
  - destruct rest as [|name' rest]; [by rewrite app_nil_r|]. by apply IH.
  - destruct rest as [|name' rest].
    + rewrite app_nil_r. cbn. apply lookup_insert_eq.
    + by apply IH.
Qed.

Lemma mkdirp_root_dir t l :
  fst (mkdirp t [] l) = Ok tt -> node_at (snd (mkdirp t [] l)) l = Some Dir.
Proof.
  intros Hok. destruct l as [|name l]; [done|].
  by apply (mkdirp_dir (name :: l) t []).
Qed.

Lemma mkdir_run (dir : string) (w : world) :
  let l := locate (cwd w) (Path.normalize dir) in
  mkdir dir w
  = (fst (mkdirp (tree w) [] l),
     with_tree (snd (mkdirp (tree w) [] l)) (Mkdir l) w).
Proof. cbn. unfold mkdir. by destruct (mkdirp _ _ _). Qed.

(** Appending where the directory exists and no directory is in the way. *)
Lemma appendFile_run (p : Path.path) (data : string) (w : world) :
  let l := locate (cwd w) p in
  l <> [] ->
  node_at (tree w) (removelast l) = Some Dir ->
  tree w !! l <> Some Dir ->
  appendFile p data w
  = (Ok tt,
     with_tree (<[l := File (default "" (file_at (tree w) l) +:+ data)]> (tree w))
               (AppendFile l data) w).
Proof.
  cbn. intros Hne Hparent Hnd. unfold appendFile, file_at.
  rewrite Hparent. destruct (locate (cwd w) p) as [|x l]; [done|].
  by destruct (tree w !! (x :: l)) as [[c|]|].
Qed.

(** Whatever its outcome, an append changes no regular file but its own. *)
Lemma appendFile_frame (p : Path.path) (data : string) (w : world) l' :
  l' <> locate (cwd w) p ->
  file_at (tree (snd (appendFile p data w))) l' = file_at (tree w) l'.
Proof.
  intros Hne. unfold appendFile.
  destruct (locate (cwd w) p) as [|x l]; [done|].
  destruct (node_at (tree w) (removelast (x :: l))) as [[c|]|]; [done| |done].
  destruct (tree w !! (x :: l)) as [[c|]|]; [|done|];
    by apply file_at_insert_file.
Qed.

End FsFacts.

(* ===================================================================== *)
(** * The file store *)
(* ===================================================================== *)

Section FileManagerFacts.
Import JS Run FileManager.

Variable this : FileManager.t.

(** A plain name is stored directly in the storage directory. *)
Lemma fileLoc_child (cwd : list string) (f : string) :
  Path.plain f -> fileLoc this cwd f = baseLoc this cwd ++ [f].
Proof.
  intros Hf. unfold fileLoc, baseLoc, _getFullPath.
  rewrite (join_plain _ f Hf).
  destruct (Path.normalize (baseDir this)) as [a segs]. by apply locate_snoc.
Qed.

Lemma appendToFile_run (f : string) (text : jsval) (w : world) :
  let l := fileLoc this (cwd w) f in
  let old := default "" (Fs.file_at (tree w) l) in
  Path.plain f ->
  Fs.clear_way (tree w) (baseLoc this (cwd w)) = true ->
  tree w !! l <> Some Dir ->
  exists w',
    appendToFile this f text w = (Ok tt, w')
    /\ cwd w' = cwd w /\ res w' = res w
    /\ tree w' !! l = Some (File (old +:+ toString text +:+ newline))
    /\ forall l', l' <> l -> Fs.file_at (tree w') l' = Fs.file_at (tree w) l'.
Proof.
  cbn. intros Hf Hclear Hnd.
  pose proof (fileLoc_child (cwd w) f Hf) as Hl.
  apply mkdirp_ok in Hclear.
  pose proof (mkdirp_root_dir _ _ Hclear) as Hdir.
  assert (snd (Fs.mkdirp (tree w) [] (baseLoc this (cwd w)))
            !! fileLoc this (cwd w) f
          = tree w !! fileLoc this (cwd w) f) as Hsame.
  { apply mkdirp_lookup_below. rewrite Hl, !length_app. cbn. lia. }
  unfold appendToFile, try_catch, bind. rewrite mkdir_run.
  change (Fs.locate (cwd w) (Path.normalize (baseDir this)))
    with (baseLoc this (cwd w)).
  rewrite Hclear, appendFile_run; cbn [cwd tree with_tree];
    change (Fs.locate (cwd w) (_getFullPath this f))
      with (fileLoc this (cwd w) f).
  - eexists. split; [done|]. cbn [cwd tree res with_tree].
    unfold Fs.file_at at 1. rewrite Hsame.
    repeat split; [apply lookup_insert_eq|].
    intros l' Hne. rewrite file_at_insert_file by done. apply mkdirp_file_at.
  - rewrite Hl. by destruct (baseLoc this (cwd w)).
  - rewrite Hl, removelast_last. apply Hdir.
  - by rewrite Hsame.
Qed.

(** What a read returns is decided by what stands at the file's location. *)
Lemma readFile_run (f : string) (w : world) :
  let l := fileLoc this (cwd w) f in
  let w1 := with_tree (tree w) (Access l) w in
  readFile this f w
  = match Fs.node_at (tree w) l with
    | None => (Ok None, w1)
    | Some (File c) => (Ok (Some c), with_tree (tree w) (ReadFile l) w1)
    | Some Dir => (Throw EISDIR, with_tree (tree w) (ReadFile l) w1)
    end.
Proof.
  cbn. unfold readFile, fileExists, try_catch, bind, Fs.access, Fs.readFile, ret.
  unfold fileLoc.
  destruct (Fs.node_at (tree w) (Fs.locate (cwd w) (_getFullPath this f)))
    as [[c|]|] eqn:E; cbn; by rewrite ?E.
Qed.

End FileManagerFacts.

(* ===================================================================== *)
(** * Responses and handlers *)
(* ===================================================================== *)

Section HandlerFacts.
Import JS Run ResponseFormatter RequestHandler.

Variable this : FileManager.t.

Lemma sendError_run (status : nat) (message : string) (w : world) :
  sendError status message w
  = (Ok tt, with_res (reply status "text/plain" message (res w)) w).
Proof. reflexivity. Qed.

Lemma sendSuccess_run (data : string) (ct : option string) (w : world) :
  sendSuccess data ct w
  = (Ok tt, with_res (reply 200 (default "text/plain" ct) data (res w)) w).
Proof. reflexivity. Qed.

Lemma reply_status status ct data r :
  Http.statusCode (reply status ct data r) = status.
Proof. reflexivity. Qed.


Lemma reply_finished status ct data r :
  Http.finished (reply status ct data r) = true.
Proof. reflexivity. Qed.

Lemma reply_cors status ct data r :
  Http.headers (reply status ct data r) !! "Access-Control-Allow-Origin"
  = Some "*".
Proof.
  unfold reply. cbn. apply lookup_union_Some_l.
  rewrite lookup_insert_ne by done. apply lookup_insert_eq.
Qed.

(** The file store never touches the response or the working directory. *)
Lemma appendToFile_res (f : string) (text : jsval) (w : world) :
  res (snd (FileManager.appendToFile this f text w)) = res w
  /\ cwd (snd (FileManager.appendToFile this f text w)) = cwd w.
Proof.
  unfold FileManager.appendToFile, try_catch, bind. rewrite mkdir_run.
  destruct (fst (Fs.mkdirp _ _ _)); [|done].
  unfold Fs.appendFile. cbn [cwd tree with_tree].
  destruct (Fs.locate _ _) as [|x l]; [done|].
  destruct (Fs.node_at _ _) as [[c|]|]; [done| |done].
  by destruct (_ !! _) as [[c|]|].
Qed.

(** The write handler, path by path. *)
Lemma handleWriteRequest_run (q : gmap string jsval) (w : world) :
  let text := prop q "text" in
  handleWriteRequest this q w
  = if truthy text then
      match FileManager.appendToFile this "file.txt" text w with
      | (Ok _, w1) => sendWriteSuccess text w1
      | (Throw _, w1) =>
          sendError 500 "Internal Server Error: Could not write to file" w1
      end
    else
      sendError 400
        ("Bad Request: Missing " +:+ dquote +:+ "text" +:+ dquote
         +:+ " parameter") w.
Proof.
  cbn zeta. unfold handleWriteRequest, try_catch.
  destruct (truthy (prop q "text")); [|done].
  unfold bind.
  change (PathValidator.isValidFilename (JStr "file.txt")) with true.
  cbn [negb].
  by destruct (FileManager.appendToFile this "file.txt" (prop q "text") w)
    as [[[]|e] w1].
Qed.

(** The read handler, path by path. *)
Lemma handleReadRequest_run (filename : option string) (w : world) :
  handleReadRequest this filename w
  = match filename with
    | None | Some EmptyString =>
        sendError 400 "Bad Request: No filename provided" w
    | Some f =>
        let name := PathValidator.sanitizeFilename f in
        if PathValidator.isValidFilename (JStr name) then
          match FileManager.readFile this name w with
          | (Ok None, w1) => send404 name w1
          | (Ok (Some content), w1) =>
              sendSuccess content (Some "text/plain; charset=utf-8") w1
          | (Throw _, w1) =>
              sendError 500 "Internal Server Error: Could not read file" w1
          end
        else sendError 400 "Bad Request: Invalid filename" w
    end.
Proof.
  unfold handleReadRequest, try_catch.
  destruct filename as [[|c f]|]; [done| |done]. cbn zeta.
  destruct (PathValidator.isValidFilename _); [|done].
  cbn [negb]. unfold bind.
  by destruct (FileManager.readFile this _ w) as [[[content|]|e] w1].
Qed.

End HandlerFacts.

(* ===================================================================== *)
(** * Appending and reading back *)
(* ===================================================================== *)

Section AppendRead.
Import JS Run FileManager.

Variable this : FileManager.t.

Lemma node_at_child (t : gmap (list string) node) (l : list string)
  (x : string) :
  Fs.node_at t (l ++ [x]) = t !! (l ++ [x]).
Proof. by destruct l. Qed.

Lemma node_at_fileLoc (t : gmap (list string) node) (cwd : list string)
  (f : string) :
  Path.plain f ->
  Fs.node_at t (fileLoc this cwd f) = t !! fileLoc this cwd f.
Proof. intros Hf. rewrite (fileLoc_child this cwd f Hf). apply node_at_child. Qed.

(** An append leaves the way to the storage directory clear. *)
Lemma clear_way_kept (f : string) (t t' : gmap (list string) node)
  (cwd : list string) :
  Path.plain f ->
  (forall l', l' <> fileLoc this cwd f -> Fs.file_at t' l' = Fs.file_at t l') ->
  Fs.clear_way t' (baseLoc this cwd) = Fs.clear_way t (baseLoc this cwd).
Proof.
  intros Hf Hframe. apply clear_from_agree. intros l Hlen. apply Hframe.
  intros ->. rewrite (fileLoc_child this cwd f Hf), length_app in Hlen.
  cbn in Hlen. lia.
Qed.

(** Two appends in a row, whatever the file held before. *)
Lemma appendToFile_twice (f : string) (T1 T2 : jsval) (w : world) :
  let l := fileLoc this (cwd w) f in
  let old := default "" (Fs.file_at (tree w) l) in
  Path.plain f ->
  Fs.clear_way (tree w) (baseLoc this (cwd w)) = true ->
  tree w !! l <> Some Dir ->
  exists w1 w2,
    appendToFile this f T1 w = (Ok tt, w1)
    /\ appendToFile this f T2 w1 = (Ok tt, w2)
    /\ cwd w2 = cwd w
    /\ tree w2 !! l
       = Some (File (old +:+ toString T1 +:+ newline
                         +:+ toString T2 +:+ newline)).
Proof.
  cbn zeta. intros Hf Hclear Hnd.
  destruct (appendToFile_run this f T1 w Hf Hclear Hnd)
    as (w1 & Hrun1 & Hcwd1 & _ & Hl1 & Hframe1).
  destruct (appendToFile_run this f T2 w1 Hf) as (w2 & Hrun2 & Hcwd2 & _ & Hl2 & _).
  - by rewrite Hcwd1, (clear_way_kept f (tree w)).
  - by rewrite Hcwd1, Hl1.
  - exists w1, w2. repeat split; [done..|congruence|].
    rewrite Hcwd1 in Hl2. rewrite Hl2. unfold Fs.file_at at 1. rewrite Hl1.
    cbn [default from_option id]. by rewrite !app_assoc_str.
Qed.

(** C1. Appending a text [T] to a file of a fresh store, one whose
    directory is empty or absent and in which the file does not exist,
    succeeds, and reading the file back then returns exactly [T] followed
    by one newline. *)
Theorem append_then_read_fresh (f T : string) (w : world) :
  PathValidator.isValidFilename (JStr f) = true ->
  Fs.clear_way (tree w) (baseLoc this (cwd w)) = true ->
  tree w !! fileLoc this (cwd w) f = None ->
  exists w1 w2,
    appendToFile this f (JStr T) w = (Ok tt, w1)
    /\ readFile this f w1 = (Ok (Some (T +:+ newline)), w2).
Proof.
  intros Hv Hclear Habs. pose proof (valid_plain f Hv) as Hf.
  destruct (appendToFile_run this f (JStr T) w Hf Hclear)
    as (w1 & Hrun & Hcwd & _ & Hl & _); [by rewrite Habs|].
  exists w1. rewrite readFile_run. cbn zeta.
  rewrite Hcwd, (node_at_fileLoc _ _ _ Hf), Hl.
  unfold Fs.file_at. rewrite Habs. by eexists.
Qed.

(** C3. Appending [T1] and then [T2] to the same file of a fresh store
    leaves a file that reads back as [T1], newline, [T2], newline: the
    two lines in the order they were appended. *)
Theorem append_preserves_order (f T1 T2 : string) (w : world) :
  PathValidator.isValidFilename (JStr f) = true ->
  Fs.clear_way (tree w) (baseLoc this (cwd w)) = true ->
  tree w !! fileLoc this (cwd w) f = None ->
  exists w1 w2 w3,
    appendToFile this f (JStr T1) w = (Ok tt, w1)
    /\ appendToFile this f (JStr T2) w1 = (Ok tt, w2)
    /\ readFile this f w2
       = (Ok (Some (T1 +:+ newline +:+ T2 +:+ newline)), w3).
Proof.
  intros Hv Hclear Habs. pose proof (valid_plain f Hv) as Hf.
  destruct (appendToFile_twice f (JStr T1) (JStr T2) w Hf Hclear)
    as (w1 & w2 & Hrun1 & Hrun2 & Hcwd & Hl); [by rewrite Habs|].
  exists w1, w2. rewrite readFile_run. cbn zeta.
  rewrite Hcwd, (node_at_fileLoc _ _ _ Hf), Hl.
  unfold Fs.file_at. rewrite Habs. by eexists.
Qed.

End AppendRead.

Lemma append_then_read_fresh_witness :
  exists w1 w2,
    FileManager.appendToFile Sample.fm "file.txt" (JS.JStr "BCIT") Sample.w0
      = (Run.Ok tt, w1)
    /\ FileManager.readFile Sample.fm "file.txt" w1
       = (Run.Ok (Some ("BCIT" +:+ JS.newline)), w2).
Proof.
  apply (append_then_read_fresh Sample.fm "file.txt" "BCIT" Sample.w0);
    reflexivity.
Defined.

Lemma append_preserves_order_witness :
  exists w1 w2 w3,
    FileManager.appendToFile Sample.fm "file.txt" (JS.JStr "a") Sample.w0
      = (Run.Ok tt, w1)
    /\ FileManager.appendToFile Sample.fm "file.txt" (JS.JStr "b") w1
       = (Run.Ok tt, w2)
    /\ FileManager.readFile Sample.fm "file.txt" w2
       = (Run.Ok (Some ("a" +:+ JS.newline +:+ "b" +:+ JS.newline)), w3).
Proof.
  apply (append_preserves_order Sample.fm "file.txt" "a" "b" Sample.w0);
    reflexivity.
Defined.

(* ===================================================================== *)
(** * The read handler *)
(* ===================================================================== *)

Section ReadHandler.
Import JS Run ResponseFormatter RequestHandler.

Variable this : FileManager.t.

(** C2. The read handler answers 400 exactly for the names the policy
    rejects: a name that is not a string or that, after trimming, is empty,
    contains [..], [/] or [\], does not end in [.txt], or has a character
    outside [[A-Za-z0-9_.-]].  The condition does not mention the store, so
    the rejection is the same whether or not such a file exists; and for a
    rejected name the handler makes no call to the file system and leaves
    the store as it was. *)
Theorem read_rejects_iff_policy (filename : option string) (w : world) :
  let w' := snd (handleReadRequest this filename w) in
  (Http.statusCode (res w') = 400 <-> Policy.rejects filename)
  /\ (Policy.rejects filename -> calls w' = calls w /\ tree w' = tree w).
Proof.
  cbn zeta. rewrite handleReadRequest_run.
  destruct filename as [[|c f]|]; cbn [Policy.rejects].
  - split; [split; [by left | done] | done].
  - cbn zeta. unfold PathValidator.sanitizeFilename.
    rewrite <- isValidFilename_false.
    destruct (PathValidator.isValidFilename (JStr (trim (String c f)))) eqn:Hv.
    + split; [|done]. split; [|done].
      rewrite readFile_run. cbn zeta.
      by destruct (Fs.node_at _ _) as [[content|]|].
    + by split.
  - by split.
Qed.

(** C4. Reading a valid name under which nothing is stored: the file store
    returns [null] without throwing, and the handler answers 404 with the
    body [Error 404: File '<name>' not found]. *)
Theorem read_absent_is_404 (f : string) (w : world) :
  PathValidator.isValidFilename (JStr f) = true ->
  tree w !! FileManager.fileLoc this (cwd w) f = None ->
  fst (FileManager.readFile this f w) = Ok None
  /\ let w' := snd (handleReadRequest this (Some f) (with_res Http.fresh w)) in
     Http.statusCode (res w') = 404
     /\ Http.body (res w') = "Error 404: File '" +:+ f +:+ "' not found"
     /\ Http.finished (res w') = true.
Proof.
  intros Hv Habs. pose proof (valid_plain f Hv) as Hf.
  assert (forall r, Fs.node_at (tree (with_res r w))
                      (FileManager.fileLoc this (cwd (with_res r w)) f) = None)
    as Hnone.
  { intros r. cbn [tree cwd with_res]. by rewrite node_at_fileLoc. }
  split.
  - rewrite readFile_run. cbn zeta.
    by rewrite (node_at_fileLoc this _ _ _ Hf), Habs.
  - cbn zeta. rewrite handleReadRequest_run.
    destruct f as [|c f]; [by destruct Hf|].
    cbn zeta. rewrite (valid_trim _ Hv), Hv, readFile_run. cbn zeta.
    by rewrite Hnone.
Qed.

(** C10. The validator accepts the bare extension [.txt], so a read request
    for it is not answered 400: the handler goes on to probe the store for
    a file of that name. *)
Theorem read_bare_extension (w : world) :
  PathValidator.isValidFilename (JStr ".txt") = true
  /\ let w' := snd (handleReadRequest this (Some ".txt") w) in
     Http.statusCode (res w') <> 400
     /\ exists rest,
          calls w' = calls w
                     ++ Access (FileManager.fileLoc this (cwd w) ".txt") :: rest.
Proof.
  assert (PathValidator.isValidFilename (JStr ".txt") = true) as Hv by done.
  split; [done|]. cbn zeta. rewrite handleReadRequest_run. cbn zeta.
  rewrite (valid_trim _ Hv), Hv, readFile_run. cbn zeta.
  destruct (Fs.node_at _ _) as [[content|]|]; unfold send404;
    rewrite ?sendSuccess_run, ?sendError_run;
    cbn [snd res calls with_res with_tree];
    rewrite reply_status; (split; [done|]).
  - eexists. by rewrite <- app_assoc.
  - eexists. by rewrite <- app_assoc.
  - by eexists.
Qed.

End ReadHandler.

Lemma read_absent_is_404_witness :
  fst (FileManager.readFile Sample.fm "nothing.txt" Sample.w0) = Run.Ok None
  /\ Http.statusCode
       (Run.res (snd (RequestHandler.handleReadRequest Sample.fm
                        (Some "nothing.txt")
                        (Run.with_res Http.fresh Sample.w0)))) = 404
  /\ Http.body
       (Run.res (snd (RequestHandler.handleReadRequest Sample.fm
                        (Some "nothing.txt")
                        (Run.with_res Http.fresh Sample.w0))))
     = "Error 404: File 'nothing.txt' not found"
  /\ Http.finished
       (Run.res (snd (RequestHandler.handleReadRequest Sample.fm
                        (Some "nothing.txt")
                        (Run.with_res Http.fresh Sample.w0)))) = true.
Proof.
  apply (read_absent_is_404 Sample.fm "nothing.txt" Sample.w0); reflexivity.
Defined.

(* ===================================================================== *)
(** * The write handler *)
(* ===================================================================== *)

Section WriteHandler.
Import JS Run ResponseFormatter RequestHandler.

Variable this : FileManager.t.

(** Whatever its outcome, an append changes no regular file but its own. *)
Lemma appendToFile_frame (f : string) (text : jsval) (w : world)
  (l : list string) :
  l <> FileManager.fileLoc this (cwd w) f ->
  Fs.file_at (tree (snd (FileManager.appendToFile this f text w))) l
  = Fs.file_at (tree w) l.
Proof.
  intros Hne. unfold FileManager.appendToFile, try_catch, bind.
  rewrite mkdir_run. cbn zeta.
  destruct (fst (Fs.mkdirp _ _ _)).
  - match goal with
    | |- context [Fs.appendFile ?p ?d ?w1] =>
        pose proof (appendFile_frame p d w1 l Hne) as Hf;
        destruct (Fs.appendFile p d w1) as [[[]|e] w2]
    end; cbn [snd throw] in *; rewrite Hf; apply mkdirp_file_at.
  - apply mkdirp_file_at.
Qed.

(** C5. A write request whose [text] parameter is missing or empty is
    answered 400, and nothing is done to the store: no call reaches the
    file system and every file is as it was. *)
Theorem write_without_text (q : gmap string jsval) (w : world) :
  q !! "text" = None \/ q !! "text" = Some (JStr "") ->
  let w' := snd (handleWriteRequest this q w) in
  Http.statusCode (res w') = 400
  /\ tree w' = tree w
  /\ calls w' = calls w.
Proof.
  intros Hq. cbn zeta. rewrite handleWriteRequest_run. cbn zeta.
  assert (truthy (prop q "text") = false) as ->; [|done].
  unfold prop. by destruct Hq as [-> | ->].
Qed.

(** C6. The validator accepts the literal [file.txt], so a write request
    with a non-empty [text] never takes the [Invalid filename] branch: it
    goes on to the append, and is answered by the success message or, when
    the append throws, by the 500 message. *)
Theorem write_reaches_append (q : gmap string jsval) (w : world) :
  truthy (prop q "text") = true ->
  PathValidator.isValidFilename (JStr "file.txt") = true
  /\ handleWriteRequest this q w
     = match FileManager.appendToFile this "file.txt" (prop q "text") w with
       | (Ok _, w1) => sendWriteSuccess (prop q "text") w1
       | (Throw _, w1) =>
           sendError 500 "Internal Server Error: Could not write to file" w1
       end.
Proof.
  intros Ht. split; [done|]. rewrite handleWriteRequest_run. cbn zeta.
  by rewrite Ht.
Qed.

(** C9. Whatever its query parameters, a write request changes no regular
    file other than [file.txt] of the storage directory: every other file
    exists afterwards exactly if it existed before, with the same
    content. *)
Theorem write_touches_only_file_txt (q : gmap string jsval) (w : world)
  (l : list string) :
  l <> FileManager.baseLoc this (cwd w) ++ ["file.txt"] ->
  Fs.file_at (tree (snd (handleWriteRequest this q w))) l
  = Fs.file_at (tree w) l.
Proof.
  intros Hne. rewrite handleWriteRequest_run. cbn zeta.
  rewrite <- (fileLoc_child this (cwd w) "file.txt") in Hne
    by (by apply valid_plain).
  destruct (truthy (prop q "text")); [|done].
  pose proof (appendToFile_frame "file.txt" (prop q "text") w l Hne) as Hf.
  by destruct (FileManager.appendToFile this "file.txt" (prop q "text") w)
    as [[[]|e] w1].
Qed.

End WriteHandler.

Lemma write_without_text_witness :
  Http.statusCode
    (Run.res (snd (RequestHandler.handleWriteRequest Sample.fm ∅ Sample.w0)))
  = 400
  /\ Run.tree (snd (RequestHandler.handleWriteRequest Sample.fm ∅ Sample.w0))
     = Run.tree Sample.w0
  /\ Run.calls (snd (RequestHandler.handleWriteRequest Sample.fm ∅ Sample.w0))
     = Run.calls Sample.w0.
Proof.
  apply (write_without_text Sample.fm ∅ Sample.w0). left. reflexivity.
Defined.

Lemma write_reaches_append_witness :
  PathValidator.isValidFilename (JS.JStr "file.txt") = true
  /\ RequestHandler.handleWriteRequest Sample.fm
       (Server.query (Sample.write "BCIT")) Sample.w0
     = match FileManager.appendToFile Sample.fm "file.txt"
               (RequestHandler.prop (Server.query (Sample.write "BCIT")) "text")
               Sample.w0 with
       | (Run.Ok _, w1) =>
           ResponseFormatter.sendWriteSuccess
             (RequestHandler.prop (Server.query (Sample.write "BCIT")) "text") w1
       | (Run.Throw _, w1) =>
           ResponseFormatter.sendError 500
             "Internal Server Error: Could not write to file" w1
       end.
Proof.
  apply (write_reaches_append Sample.fm (Server.query (Sample.write "BCIT"))
           Sample.w0).
  reflexivity.
Defined.

Lemma write_touches_only_file_txt_witness :
  Fs.file_at
    (Run.tree (snd (RequestHandler.handleWriteRequest Sample.fm
                      (Server.query (Sample.write "BCIT")) Sample.w_other)))
    ["srv"; "lab3"; "files"; "other.txt"]
  = Fs.file_at (Run.tree Sample.w_other) ["srv"; "lab3"; "files"; "other.txt"].
Proof.
  apply (write_touches_only_file_txt Sample.fm
           (Server.query (Sample.write "BCIT")) Sample.w_other).
  vm_compute. discriminate.
Defined.

(* ===================================================================== *)
(** * The server *)
(* ===================================================================== *)

Section ServerFacts.
Import JS Run ResponseFormatter RequestHandler.

Variable this : FileManager.t.

(** Both handlers end, on every path, in a reply of the formatter and never
    throw. *)
Lemma handleWriteRequest_replies (q : gmap string jsval) (w : world) :
  exists w1 st ct data,
    handleWriteRequest this q w
    = (Ok tt, with_res (reply st ct data (res w1)) w1).
Proof.
  rewrite handleWriteRequest_run. cbn zeta.
  destruct (truthy (prop q "text"));
    [destruct (FileManager.appendToFile _ _ _ _) as [[[]|e] w1]|];
    unfold sendWriteSuccess; rewrite ?sendSuccess_run, ?sendError_run;
    by eexists _, _, _, _.
Qed.

Lemma handleReadRequest_replies (filename : option string) (w : world) :
  exists w1 st ct data,
    handleReadRequest this filename w
    = (Ok tt, with_res (reply st ct data (res w1)) w1).
Proof.
  rewrite handleReadRequest_run.
  destruct filename as [[|c f]|]; cbn zeta;
    [|destruct (PathValidator.isValidFilename _);
       [destruct (FileManager.readFile _ _ _) as [[[content|]|e] w1]|]|];
    unfold send404; rewrite ?sendSuccess_run, ?sendError_run;
    by eexists _, _, _, _.
Qed.

(** C7. Every response the server produces carries the header
    [Access-Control-Allow-Origin: *]: the answers of both handlers,
    whatever their status, the answer to OPTIONS, and the answer to a path
    that matches no endpoint. *)
Theorem every_response_allows_any_origin (req : Server.request) (w : world) :
  let r := res (Server.serve this req w) in
  Http.headers r !! "Access-Control-Allow-Origin" = Some "*"
  /\ Http.finished r = true.
Proof.
  cbn zeta. unfold Server.serve, Server.callback, bind, on_res, try_catch.
  cbn [fst snd res with_res].
  destruct (String.eqb (Server.method req) "OPTIONS").
  - cbn. split; [|done]. rewrite lookup_union_r by done.
    rewrite lookup_insert_ne by done. apply lookup_insert_eq.
  - destruct (_ || _).
    + match goal with
      | |- context [handleWriteRequest this ?q ?w0] =>
          destruct (handleWriteRequest_replies q w0)
            as (w1 & st & ct & data & ->)
      end.
      split; [apply reply_cors | done].
    + destruct (startsWith _ _).
      * match goal with
        | |- context [handleReadRequest this ?f ?w0] =>
            destruct (handleReadRequest_replies f w0)
              as (w1 & st & ct & data & ->)
        end.
        split; [apply reply_cors | done].
      * rewrite sendError_run. split; [apply reply_cors | done].
Qed.

(** C8. A name the validator accepts has no separator and is not [..], so
    the full path the file store computes for it is the storage directory
    followed by that one name: the file lies directly inside the storage
    directory. *)
Theorem valid_name_stays_inside (cwd : list string) (f : string) :
  PathValidator.isValidFilename (JStr f) = true ->
  (includes "/" f = false /\ includes "\" f = false /\ includes ".." f = false)
  /\ FileManager._getFullPath this f
     = {| Path.absolute :=
            Path.absolute (Path.normalize (FileManager.baseDir this));
          Path.segments :=
            Path.segments (Path.normalize (FileManager.baseDir this)) ++ [f] |}
  /\ FileManager.fileLoc this cwd f = FileManager.baseLoc this cwd ++ [f].
Proof.
  intros Hv. pose proof (valid_plain f Hv) as Hf.
  apply isValidFilename_true in Hv as (_ & Hdd & Hs & Hb & _).
  repeat split; [done..| |].
  - by apply join_plain.
  - by apply fileLoc_child.
Qed.

End ServerFacts.

Lemma valid_name_stays_inside_witness :
  (JS.includes "/" "file.txt" = false
   /\ JS.includes "\" "file.txt" = false
   /\ JS.includes ".." "file.txt" = false)
  /\ FileManager._getFullPath Sample.fm "file.txt"
     = {| Path.absolute :=
            Path.absolute (Path.normalize (FileManager.baseDir Sample.fm));
          Path.segments :=
            Path.segments (Path.normalize (FileManager.baseDir Sample.fm))
            ++ ["file.txt"] |}
  /\ FileManager.fileLoc Sample.fm ["srv"; "lab3"] "file.txt"
     = FileManager.baseLoc Sample.fm ["srv"; "lab3"] ++ ["file.txt"].
Proof.
  apply (valid_name_stays_inside Sample.fm ["srv"; "lab3"] "file.txt").
  reflexivity.
Defined.

(* ===================================================================== *)
(** * Every file-system call of a request stays in the storage directory *)
(* ===================================================================== *)

Section Confinement.
Import JS Run ResponseFormatter RequestHandler.

Variable this : FileManager.t.

Lemma appendToFile_calls (f : string) (text : jsval) (w : world) :
  Path.plain f ->
  exists new,
    calls (snd (FileManager.appendToFile this f text w)) = calls w ++ new
    /\ Forall (FileManager.stays_inside (FileManager.baseLoc this (cwd w))) new.
Proof.
  intros Hf. unfold FileManager.appendToFile, try_catch, bind.
  rewrite mkdir_run. cbn zeta.
  change (Fs.locate (cwd w) (Path.normalize (FileManager.baseDir this)))
    with (FileManager.baseLoc this (cwd w)).
  assert (FileManager.stays_inside (FileManager.baseLoc this (cwd w))
            (Mkdir (FileManager.baseLoc this (cwd w)))) as Hmk by (by left).
  destruct (fst (Fs.mkdirp _ _ _)).
  - match goal with
    | |- context [Fs.appendFile ?p ?d ?w1] =>
        assert (exists o, Fs.appendFile p d w1
                  = (o, with_tree (tree (snd (Fs.appendFile p d w1)))
                          (AppendFile (FileManager.fileLoc this (cwd w) f) d)
                          w1)) as [o ->]
    end.
    { unfold Fs.appendFile. cbn [cwd tree with_tree].
      change (Fs.locate (cwd w) (FileManager._getFullPath this f))
        with (FileManager.fileLoc this (cwd w) f).
      destruct (FileManager.fileLoc this (cwd w) f) as [|x l];
        [by eexists|].
      destruct (Fs.node_at _ _) as [[c|]|]; [by eexists| |by eexists].
      destruct (_ !! _) as [[c|]|]; by eexists. }
    exists [Mkdir (FileManager.baseLoc this (cwd w));
            AppendFile (FileManager.fileLoc this (cwd w) f)
              (toString text +:+ newline)].
    split; [destruct o; cbn; by rewrite <- app_assoc|].
    constructor; [done|]. constructor; [|done].
    right. exists f. split; [done|]. by apply fileLoc_child.
  - exists [Mkdir (FileManager.baseLoc this (cwd w))].
    split; [done|]. by constructor.
Qed.

Lemma readFile_calls (f : string) (w : world) :
  Path.plain f ->
  exists new,
    calls (snd (FileManager.readFile this f w)) = calls w ++ new
    /\ Forall (FileManager.stays_inside (FileManager.baseLoc this (cwd w))) new.
Proof.
  intros Hf. rewrite readFile_run. cbn zeta.
  assert (forall c, call_loc c = FileManager.fileLoc this (cwd w) f ->
            FileManager.stays_inside (FileManager.baseLoc this (cwd w)) c)
    as Hin.
  { intros c Hc. right. exists f. split; [done|].
    by rewrite Hc, fileLoc_child. }
  destruct (Fs.node_at _ _) as [[c|]|]; cbn [snd calls with_tree].
  - eexists. rewrite <- app_assoc. split; [done|].
    constructor; [by apply Hin|]. constructor; [by apply Hin|done].
  - eexists. rewrite <- app_assoc. split; [done|].
    constructor; [by apply Hin|]. constructor; [by apply Hin|done].
  - eexists. split; [done|]. constructor; [by apply Hin|done].
Qed.

Lemma handleWriteRequest_calls (q : gmap string jsval) (w : world) :
  exists new,
    calls (snd (handleWriteRequest this q w)) = calls w ++ new
    /\ Forall (FileManager.stays_inside (FileManager.baseLoc this (cwd w))) new.
Proof.
  rewrite handleWriteRequest_run. cbn zeta.
  destruct (truthy (prop q "text")).
  - destruct (appendToFile_calls "file.txt" (prop q "text") w)
      as (new & Hnew & Hin); [by apply valid_plain|].
    exists new. split; [|done].
    by destruct (FileManager.appendToFile _ _ _ _) as [[[]|e] w1].
  - exists []. split; [by rewrite app_nil_r | done].
Qed.

Lemma handleReadRequest_calls (filename : option string) (w : world) :
  exists new,
    calls (snd (handleReadRequest this filename w)) = calls w ++ new
    /\ Forall (FileManager.stays_inside (FileManager.baseLoc this (cwd w))) new.
Proof.
  assert (exists new,
    calls w = calls w ++ new
    /\ Forall (FileManager.stays_inside (FileManager.baseLoc this (cwd w))) new)
    as Hnone.
  { exists []. split; [by rewrite app_nil_r | done]. }
  rewrite handleReadRequest_run.
  destruct filename as [[|c f]|]; [done| |done]. cbn zeta.
  destruct (PathValidator.isValidFilename _) eqn:Hv; [|done].
  destruct (readFile_calls (PathValidator.sanitizeFilename (String c f)) w)
    as (new & Hnew & Hin); [by apply valid_plain|].
  exists new. split; [|done].
  by destruct (FileManager.readFile _ _ _) as [[[content|]|e] w1].
Qed.

(** X14. The calls a request makes to the file system are [mkdir] of the
    storage directory and operations on files directly inside it: no
    request reads or writes a file elsewhere. *)
Theorem requests_stay_inside (req : Server.request) (w : world) :
  exists new,
    calls (Server.serve this req w) = calls w ++ new
    /\ Forall (FileManager.stays_inside (FileManager.baseLoc this (cwd w))) new.
Proof.
  assert (exists new,
    calls w = calls w ++ new
    /\ Forall (FileManager.stays_inside (FileManager.baseLoc this (cwd w))) new)
    as Hnone.
  { exists []. split; [by rewrite app_nil_r | done]. }
  unfold Server.serve, Server.callback, bind, on_res, try_catch.
  cbn [fst snd res with_res].
  destruct (String.eqb (Server.method req) "OPTIONS"); [done|].
  destruct (_ || _); [|destruct (startsWith _ _); [|done]].
  - match goal with
    | |- context [handleWriteRequest this ?q ?w0] =>
        destruct (handleWriteRequest_calls q w0) as (new & Hnew & Hin);
        destruct (handleWriteRequest_replies this q w0)
          as (w1 & st & ct & data & Heq)
    end.
    rewrite Heq in *. by exists new.
  - match goal with
    | |- context [handleReadRequest this ?f ?w0] =>
        destruct (handleReadRequest_calls f w0) as (new & Hnew & Hin);
        destruct (handleReadRequest_replies this f w0)
          as (w1 & st & ct & data & Heq)
    end.
    rewrite Heq in *. by exists new.
Qed.

End Confinement.

(* ===================================================================== *)
(** * A write request followed by a read request *)
(* ===================================================================== *)

Section WriteThenRead.
Import JS Run ResponseFormatter RequestHandler.

Variable this : FileManager.t.

(** X15. A write request followed by a read request, for any non-empty
    text: on a fresh store, [GET /writeFile/?text=T] is answered 200 with
    the confirmation, and [GET /readFile/file.txt] then 200 with [T] and a
    newline. *)
Theorem write_then_read_back (T : string) (w : world) :
  T <> "" ->
  Fs.clear_way (tree w) (FileManager.baseLoc this (cwd w)) = true ->
  tree w !! (FileManager.baseLoc this (cwd w) ++ ["file.txt"]) = None ->
  let w1 := Server.serve this (Sample.write T) w in
  let w2 := Server.serve this (Sample.read "file.txt") w1 in
  Http.statusCode (res w1) = 200
  /\ Http.body (res w1) = "Successfully appended: " +:+ dquote +:+ T +:+ dquote
  /\ Http.statusCode (res w2) = 200
  /\ Http.body (res w2) = T +:+ newline.
Proof.
  intros HT Hclear Habs.
  assert (Path.plain "file.txt") as Hf by (by apply valid_plain).
  rewrite <- (fileLoc_child this (cwd w) "file.txt" Hf) in Habs.
  assert (truthy (JStr T) = true) as Ht.
  { cbn. by rewrite (proj2 (String.eqb_neq T "") HT). }
  (* the write request *)
  assert (exists w1,
    Server.serve this (Sample.write T) w = w1
    /\ cwd w1 = cwd w
    /\ Http.statusCode (res w1) = 200
    /\ Http.body (res w1)
       = "Successfully appended: " +:+ dquote +:+ T +:+ dquote
    /\ tree w1 !! FileManager.fileLoc this (cwd w) "file.txt"
       = Some (File (T +:+ newline))) as (w1 & -> & Hcwd & Hst & Hbody & Hl).
  { unfold Server.serve, Server.callback, Sample.write, bind, on_res, try_catch.
    cbn [Server.method Server.pathname Server.query fst snd res with_res].
    change (String.eqb "GET" "OPTIONS") with false. cbn iota.
    change (String.eqb "/COMP4537/labs/3/writeFile/"
              "/COMP4537/labs/3/writeFile/") with true.
    cbn [orb]. rewrite handleWriteRequest_run. cbn zeta.
    unfold prop. rewrite lookup_singleton_eq. cbn [default from_option id].
    rewrite Ht.
    match goal with
    | |- context [FileManager.appendToFile this _ _ ?w0] =>
        destruct (appendToFile_run this "file.txt" (JStr T) w0 Hf)
          as (w1 & -> & Hcwd & Hres & Hl & _)
    end; [done | by cbn; rewrite Habs |].
    cbn [cwd tree with_res] in Hcwd, Hl. unfold Fs.file_at in Hl.
    rewrite Habs in Hl. unfold sendWriteSuccess. rewrite sendSuccess_run.
    eexists. split; [done|]. cbn [snd res cwd tree with_res].
    rewrite Hres. by repeat split. }
  (* the read request *)
  cbn zeta. split; [done|]. split; [done|].
  unfold Server.serve, Server.callback, Sample.read, bind, on_res, try_catch.
  cbn [Server.method Server.pathname Server.query fst snd res with_res].
  change (String.eqb "GET" "OPTIONS") with false. cbn iota.
  change (String.eqb ("/COMP4537/labs/3/readFile/" +:+ "file.txt")
            "/COMP4537/labs/3/writeFile/") with false.
  change (String.eqb ("/COMP4537/labs/3/readFile/" +:+ "file.txt")
            "/COMP4537/labs/3/writeFile") with false.
  cbn [orb].
  change (startsWith "/COMP4537/labs/3/readFile/"
            ("/COMP4537/labs/3/readFile/" +:+ "file.txt")) with true.
  cbn iota.
  change (split "/COMP4537/labs/3/readFile/"
            ("/COMP4537/labs/3/readFile/" +:+ "file.txt") !! 1)
    with (Some "file.txt").
  rewrite handleReadRequest_run.
  change (PathValidator.sanitizeFilename "file.txt") with "file.txt".
  change (PathValidator.isValidFilename (JStr "file.txt")) with true.
  cbn zeta iota. rewrite readFile_run. cbn zeta.
  cbn [cwd tree with_res]. rewrite Hcwd, (node_at_fileLoc this _ _ _ Hf), Hl.
  by rewrite sendSuccess_run.
Qed.

End WriteThenRead.

Lemma write_then_read_back_witness :
  Http.statusCode (Run.res (Server.serve Sample.fm (Sample.write "BCIT") Sample.w0))
  = 200
  /\ Http.body (Run.res (Server.serve Sample.fm (Sample.write "BCIT") Sample.w0))
     = "Successfully appended: " +:+ JS.dquote +:+ "BCIT" +:+ JS.dquote
  /\ Http.statusCode
       (Run.res (Server.serve Sample.fm (Sample.read "file.txt")
                   (Server.serve Sample.fm (Sample.write "BCIT") Sample.w0)))
     = 200
  /\ Http.body
       (Run.res (Server.serve Sample.fm (Sample.read "file.txt")
                   (Server.serve Sample.fm (Sample.write "BCIT") Sample.w0)))
     = "BCIT" +:+ JS.newline.
Proof.
  apply (write_then_read_back Sample.fm "BCIT" Sample.w0);
    [discriminate | reflexivity | reflexivity].
Defined.

(* ===================================================================== *)
(** * More on the filename policy *)
(* ===================================================================== *)

Section ValidatorMore.
Import JS PathValidator.

Lemma all_in_class_excludes (ch : ascii) (s : string) :
  in_class ch = false ->
  all_in_class s = true ->
  includes (String ch "") s = false.
Proof.
  intros Hch. induction s as [|c s IH]; [done|].
  cbn [all_in_class includes]. intros [Hc Hs]%andb_true_iff.
  rewrite (IH Hs), orb_false_r. cbn [String.prefix].
  destruct (ascii_dec ch c) as [->|]; [congruence|done].
Qed.

(** X1. The validator's answer is decided by three of its checks: the
    name has no [..], ends in [.txt], and consists of characters of the
    class.  The tests for an empty name and for [/] and [\] never reject a
    name that passes these three. *)
Theorem validator_three_checks (s : string) :
  isValidFilename (JStr s)
  = negb (includes ".." s) && endsWith ".txt" s && all_in_class s.
Proof.
  destruct (isValidFilename (JStr s)) eqn:Hv.
  - apply isValidFilename_true in Hv as (_ & -> & _ & _ & -> & ->). done.
  - destruct (includes ".." s) eqn:Hdd; [done|].
    destruct (endsWith ".txt" s) eqn:Htxt; [|done].
    destruct (all_in_class s) eqn:Hall; [|done].
    assert (isValidFilename (JStr s) = true) as Hv'; [|congruence].
    apply isValidFilename_true. repeat split; try done.
    + intros ->. discriminate Htxt.
    + by apply (all_in_class_excludes "/").
    + by apply (all_in_class_excludes "\").
Qed.

Lemma trimStart_white (pre x : string) :
  Store.all_white pre = true -> trimStart (pre +:+ x) = trimStart x.
Proof.
  induction pre as [|c pre IH]; [done|].
  cbn [Store.all_white]. intros [Hc Hpre]%andb_true_iff.
  rewrite app_cons. cbn [trimStart]. rewrite Hc. by apply IH.
Qed.

Lemma trimEnd_white (x post : string) :
  Store.all_white post = true -> trimEnd (x +:+ post) = trimEnd x.
Proof.
  intros Hpost. induction x as [|c x IH].
  - change ("" +:+ post) with post.
    induction post as [|d post IHp]; [done|].
    cbn [Store.all_white] in Hpost.
    apply andb_true_iff in Hpost as [Hd Hpost].
    cbn [trimEnd]. by rewrite (IHp Hpost), Hd.
  - rewrite app_cons. cbn [trimEnd]. by rewrite IH.
Qed.

(** White space around a name the validator accepts is trimmed away. *)
Lemma trim_padded (pre f post : string) :
  isValidFilename (JStr f) = true ->
  Store.all_white pre = true ->
  Store.all_white post = true ->
  trim (pre +:+ f +:+ post) = f.
Proof.
  intros Hv Hpre Hpost. pose proof (valid_trim f Hv) as Hf.
  unfold sanitizeFilename, trim in *.
  rewrite trimStart_white by done.
  destruct f as [|c f]; [discriminate Hv|].
  assert (is_white c = false) as Hc.
  { apply isValidFilename_true in Hv as (_ & _ & _ & _ & _ & Hall).
    cbn [all_in_class] in Hall. apply andb_true_iff in Hall as [Hc _].
    by apply in_class_not_white. }
  cbn [trimStart] in Hf. rewrite Hc in Hf.
  rewrite app_cons. cbn [trimStart]. rewrite Hc, <- app_cons.
  by rewrite trimEnd_white.
Qed.

End ValidatorMore.

Section PaddedNames.
Import JS Run RequestHandler.

Variable this : FileManager.t.

(** X2. The read handler trims the name before anything else looks at it:
    a valid name padded with white space on either side is handled exactly
    as the name itself (same response, same calls, same store), so the
    404 message shows the trimmed name. *)
Theorem read_ignores_padding (pre f post : string) (w : world) :
  PathValidator.isValidFilename (JStr f) = true ->
  Store.all_white pre = true ->
  Store.all_white post = true ->
  handleReadRequest this (Some (pre +:+ f +:+ post)) w
  = handleReadRequest this (Some f) w.
Proof.
  intros Hv Hpre Hpost. rewrite !handleReadRequest_run.
  pose proof (trim_padded pre f post Hv Hpre Hpost) as Htrim.
  pose proof (valid_trim f Hv) as Hf. unfold PathValidator.sanitizeFilename in *.
  destruct (pre +:+ f +:+ post) as [|c s] eqn:Hs.
  - cbn in Htrim. subst f. discriminate Hv.
  - destruct f as [|d f]; [discriminate Hv|]. cbn zeta. by rewrite Htrim, Hf.
Qed.

End PaddedNames.

Lemma read_ignores_padding_witness :
  RequestHandler.handleReadRequest Sample.fm (Some ("  " +:+ "file.txt" +:+ " "))
    Sample.w_stored
  = RequestHandler.handleReadRequest Sample.fm (Some "file.txt") Sample.w_stored.
Proof.
  apply (read_ignores_padding Sample.fm "  " "file.txt" " " Sample.w_stored);
    reflexivity.
Defined.

(* ===================================================================== *)
(** * Routing *)
(* ===================================================================== *)

Section Routing.
Import JS Run ResponseFormatter RequestHandler.

Variable this : FileManager.t.

(** Splitting passes over a stretch without a slash when the separator
    starts with one. *)
Lemma split_go_sepfree (sep' cur a rest : string) :
  includes "/" a = false ->
  split_go (String "/" sep') 0 cur (a +:+ rest)
  = split_go (String "/" sep') 0 (cur +:+ a) rest.
Proof.
  revert cur. induction a as [|c a IH]; intros cur Ha.
  - by rewrite app_empty_r.
  - cbn [includes] in Ha. apply orb_false_iff in Ha as [Hc Ha].
    rewrite app_cons. cbn [split_go String.prefix].
    destruct (ascii_dec "/" c) as [<-|Hne]; [by destruct a|].
    rewrite (IH _ Ha). f_equal. by rewrite app_assoc_str.
Qed.

Lemma split_go_skip (sep s cur x : string) :
  split_go sep (String.length s) cur (s +:+ x) = split_go sep 0 cur x.
Proof. induction s as [|c s IH]; [by destruct x|]. by rewrite app_cons. Qed.

(** At an occurrence of the separator the piece collected so far ends. *)
Lemma split_go_at_sep (c : ascii) (sep' cur x : string) :
  split_go (String c sep') 0 cur (String c sep' +:+ x)
  = cur :: split_go (String c sep') 0 "" x.
Proof.
  rewrite app_cons. cbn [split_go].
  assert (String.prefix (String c sep') (String c (sep' +:+ x)) = true) as ->.
  { apply prefix_spec. by exists x. }
  cbn [String.length Nat.sub]. rewrite ?Nat.sub_0_r. by rewrite split_go_skip.
Qed.

(** The name the router cuts out of a path below the read prefix: what
    follows the prefix, up to the end or to the next occurrence of the
    prefix. *)
Lemma route_filename (a tail : string) :
  includes "/" a = false ->
  tail = "" \/ startsWith "/COMP4537/labs/3/readFile/" tail = true ->
  split "/COMP4537/labs/3/readFile/"
    ("/COMP4537/labs/3/readFile/" +:+ a +:+ tail) !! 1
  = Some a.
Proof.
  intros Ha Htail. unfold split.
  rewrite split_go_at_sep, split_go_sepfree by done.
  change ("" +:+ a) with a.
  destruct Htail as [-> | Hp]; [done|].
  apply prefix_spec in Hp as [b ->]. by rewrite split_go_at_sep.
Qed.

(** X3. A path below the read prefix is routed to the read handler with
    the text that follows the prefix as the file name, cut at the next
    occurrence of the prefix if there is one: whatever comes after that
    second prefix is ignored. *)
Theorem read_route_cuts_name (req : Server.request) (a tail : string)
  (w : world) :
  Server.method req <> "OPTIONS" ->
  Server.pathname req = "/COMP4537/labs/3/readFile/" +:+ a +:+ tail ->
  includes "/" a = false ->
  tail = "" \/ startsWith "/COMP4537/labs/3/readFile/" tail = true ->
  Server.serve this req w
  = snd (handleReadRequest this (Some a) (Store.prepared w)).
Proof.
  intros Hm Hp Ha Htail.
  unfold Server.serve, Server.callback, bind, on_res, try_catch.
  cbn [fst snd res with_res].
  rewrite (proj2 (String.eqb_neq _ _) Hm), Hp.
  change (String.eqb ("/COMP4537/labs/3/readFile/" +:+ a +:+ tail)
            "/COMP4537/labs/3/writeFile/") with false.
  change (String.eqb ("/COMP4537/labs/3/readFile/" +:+ a +:+ tail)
            "/COMP4537/labs/3/writeFile") with false.
  assert (startsWith "/COMP4537/labs/3/readFile/"
            ("/COMP4537/labs/3/readFile/" +:+ a +:+ tail) = true) as ->.
  { apply prefix_spec. by eexists. }
  cbn [orb]. rewrite (route_filename a tail Ha Htail).
  match goal with
  | |- context [handleReadRequest this _ ?w0] =>
      change w0 with (Store.prepared w)
  end.
  destruct (handleReadRequest_replies this (Some a) (Store.prepared w))
    as (w1 & st & ct & data & Heq).
  by rewrite Heq.
Qed.

End Routing.

Lemma read_route_cuts_name_witness :
  Server.serve Sample.fm Sample.read_twice_prefixed Sample.w_stored
  = snd (RequestHandler.handleReadRequest Sample.fm (Some "file.txt")
           (Store.prepared Sample.w_stored)).
Proof.
  apply (read_route_cuts_name Sample.fm Sample.read_twice_prefixed
           "file.txt" ("/COMP4537/labs/3/readFile/" +:+ "ignored")
           Sample.w_stored);
    [discriminate | reflexivity | reflexivity | right; reflexivity].
Defined.

(* ===================================================================== *)
(** * What the method and the route decide *)
(* ===================================================================== *)

Section Routes.
Import JS Run ResponseFormatter RequestHandler.

Variable this : FileManager.t.

(** Reading never changes the tree or the working directory. *)
Lemma handleReadRequest_tree (filename : option string) (w : world) :
  tree (snd (handleReadRequest this filename w)) = tree w.
Proof.
  rewrite handleReadRequest_run.
  destruct filename as [[|c f]|]; [done| |done]. cbn zeta.
  destruct (PathValidator.isValidFilename _); [|done].
  rewrite readFile_run. cbn zeta.
  by destruct (Fs.node_at _ _) as [[content|]|].
Qed.



(** X6. Only the write route changes the store: a request with any other
    path, be it a read, a preflight or an unknown endpoint, leaves every
    file and directory as it was. *)
Theorem only_write_route_changes_store (req : Server.request) (w : world) :
  Server.pathname req <> "/COMP4537/labs/3/writeFile/" ->
  Server.pathname req <> "/COMP4537/labs/3/writeFile" ->
  tree (Server.serve this req w) = tree w.
Proof.
  intros H1 H2. unfold Server.serve, Server.callback, bind, on_res, try_catch.
  cbn [fst snd res with_res].
  rewrite (proj2 (String.eqb_neq _ _) H1), (proj2 (String.eqb_neq _ _) H2).
  cbn [orb].
  destruct (String.eqb (Server.method req) "OPTIONS"); [done|].
  destruct (startsWith _ _); [|done].
  match goal with
  | |- context [handleReadRequest this ?f ?w0] =>
      pose proof (handleReadRequest_tree f w0) as Ht;
      destruct (handleReadRequest_replies this f w0)
        as (w1 & st & ct & data & Heq)
  end.
  rewrite Heq in *. exact Ht.
Qed.

End Routes.



Lemma only_write_route_changes_store_witness :
  Run.tree (Server.serve Sample.fm (Sample.read "file.txt") Sample.w_stored)
  = Run.tree Sample.w_stored.
Proof.
  apply (only_write_route_changes_store Sample.fm (Sample.read "file.txt")
           Sample.w_stored); discriminate.
Defined.

(* ===================================================================== *)
(** * What a read request is answered *)
(* ===================================================================== *)

Section ReadAnswers.
Import JS Run ResponseFormatter RequestHandler.

Variable this : FileManager.t.

(** For a valid name the answer is decided by what stands in the storage
    directory under that name. *)
Lemma handleReadRequest_valid (f : string) (w : world) :
  PathValidator.isValidFilename (JStr f) = true ->
  handleReadRequest this (Some f) w
  = match tree w !! (FileManager.baseLoc this (cwd w) ++ [f]) with
    | None => send404 f (with_tree (tree w)
                (Access (FileManager.baseLoc this (cwd w) ++ [f])) w)
    | Some (File c) =>
        sendSuccess c (Some "text/plain; charset=utf-8")
          (with_tree (tree w)
             (ReadFile (FileManager.baseLoc this (cwd w) ++ [f]))
             (with_tree (tree w)
                (Access (FileManager.baseLoc this (cwd w) ++ [f])) w))
    | Some Dir =>
        sendError 500 "Internal Server Error: Could not read file"
          (with_tree (tree w)
             (ReadFile (FileManager.baseLoc this (cwd w) ++ [f]))
             (with_tree (tree w)
                (Access (FileManager.baseLoc this (cwd w) ++ [f])) w))
    end.
Proof.
  intros Hv. pose proof (valid_plain f Hv) as Hf.
  rewrite handleReadRequest_run.
  destruct f as [|c f]; [discriminate Hv|]. cbn zeta.
  rewrite (valid_trim _ Hv), Hv, readFile_run. cbn zeta.
  rewrite (fileLoc_child this _ _ Hf), node_at_child.
  by destruct (tree w !! _) as [[content|]|].
Qed.

(** X7. Reading a valid name under which a regular file is stored is
    answered 200 with the whole content of the file as the body, declared
    as [text/plain; charset=utf-8]; the store is left as it was. *)
Theorem read_existing_is_200 (f content : string) (w : world) :
  PathValidator.isValidFilename (JStr f) = true ->
  tree w !! (FileManager.baseLoc this (cwd w) ++ [f]) = Some (File content) ->
  let w' := snd (handleReadRequest this (Some f) (Store.prepared w)) in
  Http.statusCode (res w') = 200
  /\ Http.body (res w') = content
  /\ Http.headers (res w') !! "Content-Type"
     = Some "text/plain; charset=utf-8"
  /\ tree w' = tree w.
Proof.
  intros Hv Hfile. cbn zeta. rewrite (handleReadRequest_valid f _ Hv).
  cbn [cwd tree Store.prepared with_res]. rewrite Hfile, sendSuccess_run.
  by repeat split.
Qed.

(** X8. Reading a valid name under which a directory stands: the
    existence probe succeeds, reading then throws, and the handler answers
    500 with its fixed message, which says nothing about the error. *)
Theorem read_directory_is_500 (f : string) (w : world) :
  PathValidator.isValidFilename (JStr f) = true ->
  tree w !! (FileManager.baseLoc this (cwd w) ++ [f]) = Some Dir ->
  fst (FileManager.fileExists this f w) = Ok true
  /\ fst (FileManager.readFile this f w) = Throw EISDIR
  /\ let w' := snd (handleReadRequest this (Some f) (Store.prepared w)) in
     Http.statusCode (res w') = 500
     /\ Http.body (res w') = "Internal Server Error: Could not read file"
     /\ tree w' = tree w.
Proof.
  intros Hv Hdir. pose proof (valid_plain f Hv) as Hf.
  assert (Fs.node_at (tree w) (FileManager.fileLoc this (cwd w) f) = Some Dir)
    as Hnode.
  { by rewrite (fileLoc_child this _ _ Hf), node_at_child. }
  split; [|split].
  - unfold FileManager.fileExists, try_catch, bind, Fs.access.
    fold (FileManager.fileLoc this (cwd w) f). by rewrite Hnode.
  - rewrite readFile_run. cbn zeta. by rewrite Hnode.
  - cbn zeta. rewrite (handleReadRequest_valid f _ Hv).
    cbn [cwd tree Store.prepared with_res]. by rewrite Hdir, sendError_run.
Qed.

End ReadAnswers.

Lemma read_existing_is_200_witness :
  Http.statusCode
    (Run.res (snd (RequestHandler.handleReadRequest Sample.fm (Some "file.txt")
                     (Store.prepared Sample.w_stored)))) = 200
  /\ Http.body
       (Run.res (snd (RequestHandler.handleReadRequest Sample.fm
                        (Some "file.txt") (Store.prepared Sample.w_stored))))
     = "one" +:+ JS.newline +:+ "two" +:+ JS.newline
  /\ Http.headers
       (Run.res (snd (RequestHandler.handleReadRequest Sample.fm
                        (Some "file.txt") (Store.prepared Sample.w_stored))))
       !! "Content-Type"
     = Some "text/plain; charset=utf-8"
  /\ Run.tree (snd (RequestHandler.handleReadRequest Sample.fm
                      (Some "file.txt") (Store.prepared Sample.w_stored)))
     = Run.tree Sample.w_stored.
Proof.
  apply (read_existing_is_200 Sample.fm "file.txt"
           ("one" +:+ JS.newline +:+ "two" +:+ JS.newline) Sample.w_stored);
    reflexivity.
Defined.

Lemma read_directory_is_500_witness :
  fst (FileManager.fileExists Sample.fm "file.txt" Sample.w_dir) = Run.Ok true
  /\ fst (FileManager.readFile Sample.fm "file.txt" Sample.w_dir)
     = Run.Throw Run.EISDIR
  /\ Http.statusCode
       (Run.res (snd (RequestHandler.handleReadRequest Sample.fm
                        (Some "file.txt") (Store.prepared Sample.w_dir)))) = 500
  /\ Http.body
       (Run.res (snd (RequestHandler.handleReadRequest Sample.fm
                        (Some "file.txt") (Store.prepared Sample.w_dir))))
     = "Internal Server Error: Could not read file"
  /\ Run.tree (snd (RequestHandler.handleReadRequest Sample.fm
                      (Some "file.txt") (Store.prepared Sample.w_dir)))
     = Run.tree Sample.w_dir.
Proof.
  apply (read_directory_is_500 Sample.fm "file.txt" Sample.w_dir); reflexivity.
Defined.

(* ===================================================================== *)
(** * When an append succeeds, and what a write request is answered *)
(* ===================================================================== *)

Section WriteAnswers.
Import JS Run ResponseFormatter RequestHandler.

Variable this : FileManager.t.

(** Appending where a directory stands fails, whatever is above it. *)
Lemma appendFile_on_dir (p : Path.path) (data : string) (w : world) :
  tree w !! Fs.locate (cwd w) p = Some Dir ->
  exists e, Fs.appendFile p data w
            = (Throw e, with_tree (tree w) (AppendFile (Fs.locate (cwd w) p) data) w).
Proof.
  intros Hdir. unfold Fs.appendFile.
  destruct (Fs.locate (cwd w) p) as [|x l]; [by eexists|].
  destruct (Fs.node_at _ _) as [[c|]|]; [by eexists| |by eexists].
  rewrite Hdir. by eexists.
Qed.

(** An append that fails has changed no regular file. *)
Lemma appendToFile_failed_files (f : string) (text : jsval) (w : world)
  (e : exn) (l : list string) :
  fst (FileManager.appendToFile this f text w) = Throw e ->
  Fs.file_at (tree (snd (FileManager.appendToFile this f text w))) l
  = Fs.file_at (tree w) l.
Proof.
  unfold FileManager.appendToFile, try_catch, bind. rewrite mkdir_run.
  cbn zeta. destruct (fst (Fs.mkdirp _ _ _)); [|intros _; apply mkdirp_file_at].
  unfold Fs.appendFile. cbn [cwd tree with_tree].
  destruct (Fs.locate _ _) as [|x l0]; [intros _; apply mkdirp_file_at|].
  destruct (Fs.node_at _ _) as [[c|]|];
    [intros _; apply mkdirp_file_at| |intros _; apply mkdirp_file_at].
  destruct (_ !! _) as [[c|]|];
    [done | intros _; apply mkdirp_file_at | done].
Qed.

Lemma appendToFile_fails (f : string) (text : jsval) (w : world) :
  Path.plain f ->
  Fs.clear_way (tree w) (FileManager.baseLoc this (cwd w)) = false
  \/ tree w !! (FileManager.baseLoc this (cwd w) ++ [f]) = Some Dir ->
  exists e, fst (FileManager.appendToFile this f text w) = Throw e.
Proof.
  intros Hf Hwhy. unfold FileManager.appendToFile, try_catch, bind.
  rewrite mkdir_run. cbn zeta.
  change (Fs.locate (cwd w) (Path.normalize (FileManager.baseDir this)))
    with (FileManager.baseLoc this (cwd w)).
  destruct (fst (Fs.mkdirp (tree w) [] (FileManager.baseLoc this (cwd w))))
    as [[]|e] eqn:Hmk; [|by eexists].
  destruct Hwhy as [Hblocked | Hdir].
  { apply mkdirp_ok in Hmk. unfold Fs.clear_way in Hblocked. congruence. }
  match goal with
  | |- context [Fs.appendFile ?p ?d ?w1] =>
      destruct (appendFile_on_dir p d w1) as [e ->]; [|by eexists]
  end.
  cbn [cwd tree with_tree].
  change (Fs.locate (cwd w) (FileManager._getFullPath this f))
    with (FileManager.fileLoc this (cwd w) f).
  rewrite (fileLoc_child this _ _ Hf), mkdirp_lookup_below; [done|].
  rewrite !length_app. cbn. lia.
Qed.


(** X9. A write request with a non-empty [text], on a store where the
    append can succeed, is answered 200 with the text echoed between
    double quotes, as [text/plain]; the file then holds its old content
    followed by the text and a newline.  A repeated [text] key counts as
    non-empty even when every value is empty, and is written as its values
    joined by commas. *)
Theorem write_appends_line (q : gmap string jsval) (w : world) :
  let text := prop q "text" in
  let l := FileManager.baseLoc this (cwd w) ++ ["file.txt"] in
  truthy text = true ->
  Fs.clear_way (tree w) (FileManager.baseLoc this (cwd w)) = true ->
  tree w !! l <> Some Dir ->
  let w' := snd (handleWriteRequest this q (Store.prepared w)) in
  Http.statusCode (res w') = 200
  /\ Http.body (res w')
     = "Successfully appended: " +:+ dquote +:+ toString text +:+ dquote
  /\ Http.headers (res w') !! "Content-Type" = Some "text/plain"
  /\ tree w' !! l
     = Some (File (default "" (Fs.file_at (tree w) l)
                   +:+ toString text +:+ newline)).
Proof.
  cbn zeta. intros Ht Hc Hnd.
  assert (Path.plain "file.txt") as Hf by (by apply valid_plain).
  rewrite <- (fileLoc_child this _ _ Hf) in *.
  rewrite handleWriteRequest_run. cbn zeta. rewrite Ht.
  destruct (appendToFile_run this "file.txt" (prop q "text")
              (Store.prepared w) Hf Hc Hnd)
    as (w1 & -> & Hcwd & Hres & Hl & _).
  unfold sendWriteSuccess. rewrite sendSuccess_run.
  cbn [snd res tree with_res]. rewrite Hres.
  repeat split. exact Hl.
Qed.

(** X10. A write request with a non-empty [text], on a store where a
    regular file is in the way of the storage directory or a directory is
    in the file's place, is answered 500 with the handler's fixed message,
    and no regular file has been created or changed. *)
Theorem write_failure_is_500 (q : gmap string jsval) (w : world) :
  truthy (prop q "text") = true ->
  Fs.clear_way (tree w) (FileManager.baseLoc this (cwd w)) = false
  \/ tree w !! (FileManager.baseLoc this (cwd w) ++ ["file.txt"]) = Some Dir ->
  let w' := snd (handleWriteRequest this q (Store.prepared w)) in
  Http.statusCode (res w') = 500
  /\ Http.body (res w') = "Internal Server Error: Could not write to file"
  /\ forall l, Fs.file_at (tree w') l = Fs.file_at (tree w) l.
Proof.
  cbn zeta. intros Ht Hwhy.
  assert (Path.plain "file.txt") as Hf by (by apply valid_plain).
  rewrite handleWriteRequest_run. cbn zeta. rewrite Ht.
  destruct (appendToFile_fails "file.txt" (prop q "text") (Store.prepared w)
              Hf Hwhy) as [e He].
  pose proof (appendToFile_failed_files "file.txt" (prop q "text")
                (Store.prepared w) e) as Hfiles.
  pose proof (appendToFile_res this "file.txt" (prop q "text")
                (Store.prepared w)) as [Hres _].
  destruct (FileManager.appendToFile this "file.txt" (prop q "text")
              (Store.prepared w)) as [o w1].
  cbn [fst snd] in *. subst o. rewrite sendError_run.
  cbn [snd res tree with_res]. rewrite Hres.
  repeat split. intros l. by apply Hfiles.
Qed.

End WriteAnswers.


Lemma write_appends_line_witness :
  let q := Server.query Sample.write_empty_twice in
  let w' := snd (RequestHandler.handleWriteRequest Sample.fm q
                   (Store.prepared Sample.w0)) in
  Http.statusCode (Run.res w') = 200
  /\ Http.body (Run.res w')
     = "Successfully appended: " +:+ JS.dquote
       +:+ JS.toString (RequestHandler.prop q "text") +:+ JS.dquote
  /\ Http.headers (Run.res w') !! "Content-Type" = Some "text/plain"
  /\ Run.tree w'
       !! (FileManager.baseLoc Sample.fm (Run.cwd Sample.w0) ++ ["file.txt"])
     = Some (Run.File
               (default ""
                  (Fs.file_at (Run.tree Sample.w0)
                     (FileManager.baseLoc Sample.fm (Run.cwd Sample.w0)
                      ++ ["file.txt"]))
                +:+ JS.toString (RequestHandler.prop q "text")
                +:+ JS.newline)).
Proof.
  apply (write_appends_line Sample.fm (Server.query Sample.write_empty_twice)
           Sample.w0); [reflexivity | reflexivity | vm_compute; discriminate].
Defined.

Lemma write_failure_is_500_witness :
  let w' := snd (RequestHandler.handleWriteRequest Sample.fm
                   (Server.query (Sample.write "BCIT"))
                   (Store.prepared Sample.w_blocked)) in
  Http.statusCode (Run.res w') = 500
  /\ Http.body (Run.res w') = "Internal Server Error: Could not write to file"
  /\ forall l, Fs.file_at (Run.tree w') l
               = Fs.file_at (Run.tree Sample.w_blocked) l.
Proof.
  apply (write_failure_is_500 Sample.fm (Server.query (Sample.write "BCIT"))
           Sample.w_blocked); [reflexivity | left; reflexivity].
Defined.

(* ===================================================================== *)
(** * The file as a sequence of appended lines *)
(* ===================================================================== *)

Section Lines.
Import JS Run.

Variable this : FileManager.t.

Lemma appendAll_run (f : string) (texts : list jsval) : forall w,
  let l := FileManager.fileLoc this (cwd w) f in
  let old := default "" (Fs.file_at (tree w) l) in
  Path.plain f ->
  Fs.clear_way (tree w) (FileManager.baseLoc this (cwd w)) = true ->
  tree w !! l <> Some Dir ->
  exists w',
    Store.appendAll this f texts w = (Ok tt, w')
    /\ cwd w' = cwd w
    /\ tree w' !! l
       = match texts with
         | [] => tree w !! l
         | _ => Some (File (old +:+ Store.lines texts))
         end.
Proof.
  induction texts as [|text rest IH]; intros w; cbn zeta; intros Hf Hc Hnd.
  - by exists w.
  - destruct (appendToFile_run this f text w Hf Hc Hnd)
      as (w1 & Hrun & Hcwd & _ & Hl & Hframe).
    destruct (IH w1 Hf) as (w' & Hrest & Hcwd' & Hl').
    + by rewrite Hcwd, (clear_way_kept this f (tree w)).
    + by rewrite Hcwd, Hl.
    + exists w'. cbn [Store.appendAll]. unfold bind. rewrite Hrun.
      split; [done|]. split; [congruence|].
      rewrite Hcwd in Hl'. rewrite Hl'. cbn [Store.lines].
      destruct rest as [|text' rest].
      * rewrite Hl. cbn [Store.lines]. by rewrite app_empty_r.
      * unfold Fs.file_at at 1. rewrite Hl. cbn [default from_option id].
        by rewrite !app_assoc_str.
Qed.

(** X12. Texts appended one after the other to a file of the store end up
    in it as lines in the order of the appends, after whatever the file
    held before: reading it back returns the old content followed by each
    text with its newline. *)
Theorem append_all_in_order (f : string) (texts : list jsval) (w : world) :
  let l := FileManager.baseLoc this (cwd w) ++ [f] in
  PathValidator.isValidFilename (JStr f) = true ->
  Fs.clear_way (tree w) (FileManager.baseLoc this (cwd w)) = true ->
  tree w !! l <> Some Dir ->
  texts <> [] ->
  exists w',
    Store.appendAll this f texts w = (Ok tt, w')
    /\ fst (FileManager.readFile this f w')
       = Ok (Some (default "" (Fs.file_at (tree w) l) +:+ Store.lines texts)).
Proof.
  cbn zeta. intros Hv Hc Hnd Hne. pose proof (valid_plain f Hv) as Hf.
  rewrite <- (fileLoc_child this _ _ Hf) in *.
  destruct (appendAll_run f texts w Hf Hc Hnd) as (w' & Hrun & Hcwd & Hl).
  exists w'. split; [done|]. rewrite readFile_run. cbn zeta.
  rewrite Hcwd, (node_at_fileLoc this _ _ _ Hf), Hl.
  by destruct texts.
Qed.

End Lines.

Lemma append_all_in_order_witness :
  exists w',
    Store.appendAll Sample.fm "file.txt"
      [JS.JStr "three"; JS.JArr ["a"; "b"]] Sample.w_stored
    = (Run.Ok tt, w')
    /\ fst (FileManager.readFile Sample.fm "file.txt" w')
       = Run.Ok
           (Some (default ""
                    (Fs.file_at (Run.tree Sample.w_stored)
                       (FileManager.baseLoc Sample.fm (Run.cwd Sample.w_stored)
                        ++ ["file.txt"]))
                  +:+ Store.lines [JS.JStr "three"; JS.JArr ["a"; "b"]])).
Proof.
  apply (append_all_in_order Sample.fm "file.txt"
           [JS.JStr "three"; JS.JArr ["a"; "b"]] Sample.w_stored);
    [reflexivity | reflexivity | vm_compute; discriminate | discriminate].
Defined.

(* ===================================================================== *)
(** * Nothing stored is ever lost *)
(* ===================================================================== *)

Section Keeps.
Import JS Run ResponseFormatter RequestHandler.

Variable this : FileManager.t.

Lemma keeps_refl (t : gmap (list string) node) : Store.keeps t t.
Proof.
  intros l. destruct (t !! l) as [[c|]|]; [|done..].
  exists "". by rewrite app_empty_r.
Qed.

Lemma keeps_trans (t1 t2 t3 : gmap (list string) node) :
  Store.keeps t1 t2 -> Store.keeps t2 t3 -> Store.keeps t1 t3.
Proof.
  intros H12 H23 l. specialize (H12 l). specialize (H23 l).
  destruct (t1 !! l) as [[c|]|]; [|by rewrite H12 in H23|done].
  destruct H12 as [more Hm]. rewrite Hm in H23. destruct H23 as [more' Hm'].
  exists (more +:+ more'). by rewrite <- app_assoc_str.
Qed.

Lemma mkdirp_keeps rest : forall (t : gmap (list string) node) pre,
  Store.keeps t (snd (Fs.mkdirp t pre rest)).
Proof.
  induction rest as [|name rest IH]; intros t pre; [apply keeps_refl|].
  cbn [Fs.mkdirp]. destruct (t !! (pre ++ [name])) as [[c|]|] eqn:Hh.
  - apply keeps_refl.
  - apply IH.
  - eapply keeps_trans; [|apply IH]. intros l.
    destruct (decide (l = pre ++ [name])) as [->|Hne].
    + by rewrite Hh.
    + rewrite lookup_insert_ne by done. apply keeps_refl.
Qed.

Lemma appendFile_keeps (p : Path.path) (data : string) (w : world) :
  Store.keeps (tree w) (tree (snd (Fs.appendFile p data w))).
Proof.
  unfold Fs.appendFile.
  destruct (Fs.locate (cwd w) p) as [|x l0]; [apply keeps_refl|].
  destruct (Fs.node_at _ _) as [[c|]|]; [apply keeps_refl| |apply keeps_refl].
  destruct (tree w !! (x :: l0)) as [[c|]|] eqn:Hl;
    [|apply keeps_refl|]; cbn [snd tree with_tree]; intros l;
    (destruct (decide (l = x :: l0)) as [->|Hne];
     [rewrite Hl, ?lookup_insert_eq; by eauto
     |rewrite lookup_insert_ne by done; apply keeps_refl]).
Qed.

Lemma appendToFile_keeps (f : string) (text : jsval) (w : world) :
  Store.keeps (tree w) (tree (snd (FileManager.appendToFile this f text w))).
Proof.
  unfold FileManager.appendToFile, try_catch, bind. rewrite mkdir_run.
  cbn zeta. destruct (fst (Fs.mkdirp _ _ _)); [|apply mkdirp_keeps].
  match goal with
  | |- context [Fs.appendFile ?p ?d ?w1] =>
      pose proof (appendFile_keeps p d w1) as Hk;
      destruct (Fs.appendFile p d w1) as [[[]|e] w2]
  end; cbn [snd tree with_tree throw] in *;
    (eapply keeps_trans; [apply mkdirp_keeps | exact Hk]).
Qed.

Lemma handleWriteRequest_keeps (q : gmap string jsval) (w : world) :
  Store.keeps (tree w) (tree (snd (handleWriteRequest this q w))).
Proof.
  rewrite handleWriteRequest_run. cbn zeta.
  destruct (truthy (prop q "text")); [|apply keeps_refl].
  pose proof (appendToFile_keeps "file.txt" (prop q "text") w) as Hk.
  by destruct (FileManager.appendToFile _ _ _ _) as [[[]|e] w1].
Qed.

(** X13. No request removes, truncates or overwrites anything: whatever
    the request, every directory of the store is still a directory
    afterwards and every regular file still exists with its old content in
    front of anything added. *)
Theorem server_keeps_data (req : Server.request) (w : world) :
  Store.keeps (tree w) (tree (Server.serve this req w)).
Proof.
  unfold Server.serve, Server.callback, bind, on_res, try_catch.
  cbn [fst snd res with_res].
  destruct (String.eqb (Server.method req) "OPTIONS"); [apply keeps_refl|].
  destruct (_ || _); [|destruct (startsWith _ _); [|apply keeps_refl]].
  - match goal with
    | |- context [handleWriteRequest this ?q ?w0] =>
        destruct (handleWriteRequest_replies this q w0)
          as (w1 & st & ct & data & Heq);
        pose proof (handleWriteRequest_keeps q w0) as Hk
    end.
    rewrite Heq in *. exact Hk.
  - match goal with
    | |- context [handleReadRequest this ?f ?w0] =>
        pose proof (handleReadRequest_tree this f w0) as Ht;
        destruct (handleReadRequest_replies this f w0)
          as (w1 & st & ct & data & Heq)
    end.
    rewrite Heq in *. cbn [snd] in *. rewrite Ht. apply keeps_refl.
Qed.

End Keeps.

(* ===================================================================== *)
(** * Statuses and error messages *)
(* ===================================================================== *)

Section Answers.
Import JS Run ResponseFormatter RequestHandler.

Variable this : FileManager.t.





End Answers.


(* ===================================================================== *)
(** * The storage directory the server configures *)
(* ===================================================================== *)

Section ConfigFacts.
Import JS Path.

Lemma includes_slash_cons (c : ascii) (p : string) :
  c <> "/"%char -> includes "/" p = false -> includes "/" (String c p) = false.
Proof.
  intros Hne Hp. cbn [includes String.prefix]. rewrite Hp.
  by destruct (ascii_dec "/" c) as [<-|].
Qed.

Lemma pieces_sepfree (s : string) :
  Forall (fun p => includes "/" p = false) (pieces s).
Proof.
  induction s as [|c s IH]; cbn [pieces]; [by constructor|].
  destruct (Ascii.eqb_spec c "/") as [->|Hne]; [by constructor|].
  destruct (pieces s) as [|p ps].
  - constructor; [by apply includes_slash_cons | done].
  - inversion IH as [|? ? Hp Hps]; subst.
    constructor; [by apply includes_slash_cons | done].
Qed.

Lemma norm_step_abs_plain (st : list string) (seg : string) :
  Forall plain st ->
  includes "/" seg = false ->
  Forall plain (norm_step false st seg).
Proof.
  intros Hst Hseg. unfold norm_step.
  destruct (String.eqb_spec seg "") as [->|H0]; [done|].
  destruct (String.eqb_spec seg ".") as [->|H1]; [done|]. cbn [orb].
  destruct (String.eqb_spec seg "..") as [->|H2].
  - destruct st as [|top st]; [done|].
    inversion Hst; subst. by destruct (String.eqb top "..").
  - by constructor.
Qed.

Lemma fold_abs_plain (xs : list string) : forall st,
  Forall plain st ->
  Forall (fun p => includes "/" p = false) xs ->
  Forall plain (fold_left (norm_step false) xs st).
Proof.
  induction xs as [|x xs IH]; intros st Hst Hxs; [done|].
  inversion Hxs; subst. cbn [fold_left]. apply IH; [|done].
  by apply norm_step_abs_plain.
Qed.

(** The segments of a normalized absolute path are plain names. *)
Lemma normalize_abs_plain (s : string) :
  isAbsolute s = true -> Forall plain (segments (normalize s)).
Proof.
  intros Ha. unfold normalize, normalizeString. cbn [segments]. rewrite Ha.
  cbn [negb]. apply Forall_rev.
  apply fold_abs_plain; [done | apply pieces_sepfree].
Qed.

Lemma fold_plain (a : bool) (xs : list string) : forall st,
  Forall plain xs ->
  fold_left (norm_step a) xs st = rev xs ++ st.
Proof.
  induction xs as [|x xs IH]; intros st Hxs; [done|].
  inversion Hxs; subst. cbn [fold_left rev].
  rewrite norm_step_plain by done. rewrite IH by done.
  by rewrite <- app_assoc.
Qed.

Lemma pieces_join (xs : list string) :
  Forall plain xs -> xs <> [] -> pieces (JS.join "/" xs) = xs.
Proof.
  induction xs as [|x xs IH]; intros Hxs Hne; [done|].
  inversion Hxs as [|? ? Hx Hrest]; subst.
  assert (pieces x = [x]) as Hpx.
  { apply pieces_plain. by destruct Hx as (_ & _ & _ & ?). }
  destruct xs as [|y xs]; [done|].
  change (JS.join "/" (x :: y :: xs)) with (x +:+ "/" +:+ JS.join "/" (y :: xs)).
  by rewrite pieces_app_slash, Hpx, IH.
Qed.

(** Normalizing the string of a normalized absolute path gives the path
    back. *)
Lemma normalize_format (segs : list string) :
  Forall plain segs ->
  normalize (Config.format (mkPath true segs)) = mkPath true segs.
Proof.
  intros Hsegs. destruct segs as [|x xs]; [done|].
  unfold Config.format. cbn [segments absolute].
  unfold normalize, normalizeString.
  change (isAbsolute ("/" +:+ JS.join "/" (x :: xs))) with true. cbn [negb].
  f_equal.
  change (pieces ("/" +:+ JS.join "/" (x :: xs)))
    with ("" :: pieces (JS.join "/" (x :: xs))).
  rewrite pieces_join by done.
  change (fold_left (norm_step false) ("" :: x :: xs) [])
    with (fold_left (norm_step false) (x :: xs) []).
  rewrite fold_plain by done. by rewrite app_nil_r, rev_involutive.
Qed.

(** X18. The file manager the server builds keeps its files in the
    directory [files] next to server.js, wherever the process was started:
    for the absolute directory name Node supplies, [file.txt] is at
    [<dirname>/files/file.txt], independently of the working directory. *)
Theorem storage_dir_is_beside_server (dirname : string) (cwd : list string) :
  isAbsolute dirname = true ->
  FileManager.baseLoc (Config.fileManager dirname) cwd
    = segments (normalize dirname) ++ ["files"]
  /\ FileManager.fileLoc (Config.fileManager dirname) cwd "file.txt"
     = segments (normalize dirname) ++ ["files"; "file.txt"].
Proof.
  intros Ha.
  assert (plain "files") as Hfiles by (repeat split; done).
  assert (plain "file.txt") as Hfile by (repeat split; done).
  assert (FileManager.baseLoc (Config.fileManager dirname) cwd
          = segments (normalize dirname) ++ ["files"]) as Hbase.
  { unfold FileManager.baseLoc, Config.fileManager, Config.FILES_DIR.
    cbn [FileManager.baseDir]. rewrite (join_plain dirname "files" Hfiles).
    assert (absolute (normalize dirname) = true) as -> by done.
    rewrite normalize_format; [done|].
    apply Forall_app. split; [by apply normalize_abs_plain | by constructor]. }
  split; [done|].
  rewrite (fileLoc_child _ cwd "file.txt" Hfile), Hbase.
  by rewrite <- app_assoc.
Qed.

End ConfigFacts.

Lemma storage_dir_is_beside_server_witness :
  FileManager.baseLoc (Config.fileManager "/home/user//Lab3/") ["tmp"]
    = Path.segments (Path.normalize "/home/user//Lab3/") ++ ["files"]
  /\ FileManager.fileLoc (Config.fileManager "/home/user//Lab3/") ["tmp"]
       "file.txt"
     = Path.segments (Path.normalize "/home/user//Lab3/")
       ++ ["files"; "file.txt"].
Proof.
  apply (storage_dir_is_beside_server "/home/user//Lab3/" ["tmp"]).
  reflexivity.
Defined.

(* ===================================================================== *)
(** * The file manager does not confine names by itself *)
(* ===================================================================== *)

Section Unvalidated.
Import JS Path.

Variable this : FileManager.t.

Lemma rev_tail (st : list string) : rev (tail st) = removelast (rev st).
Proof.
  destruct st as [|x st]; [done|]. cbn [tail rev].
  by rewrite removelast_last.
Qed.

(** X19. [_getFullPath] checks nothing: for an absolute storage directory
    and a name of the form [../g], the full path leaves the storage
    directory and names [g] in its parent.  Only the validator, which the
    handlers call first, keeps such names away from the file system. *)
Theorem unvalidated_name_escapes (cwd : list string) (g : string) :
  isAbsolute (FileManager.baseDir this) = true ->
  plain g ->
  FileManager.fileLoc this cwd ("../" +:+ g)
  = removelast (FileManager.baseLoc this cwd) ++ [g].
Proof.
  intros Ha Hg. pose proof Hg as (_ & _ & _ & Hsep).
  unfold FileManager.fileLoc, FileManager.baseLoc, FileManager._getFullPath.
  unfold Path.join.
  destruct (String.eqb_spec (FileManager.baseDir this) "") as [He|Hne].
  { rewrite He in Ha. discriminate Ha. }
  change (String.eqb ("../" +:+ g) "") with false. cbn iota.
  unfold normalize, normalizeString, Fs.locate. cbn [absolute segments].
  rewrite isAbsolute_app, Ha by done. cbn [negb].
  rewrite pieces_app_slash.
  change ("../" +:+ g) with (".." +:+ "/" +:+ g).
  rewrite pieces_app_slash, (pieces_plain g Hsep).
  change (pieces "..") with [".."].
  rewrite !fold_left_app. cbn [fold_left].
  pose proof (fold_abs_plain (pieces (FileManager.baseDir this)) []
                (Forall_nil_2 _) (pieces_sepfree _)) as Hst.
  destruct (fold_left (norm_step false) (pieces (FileManager.baseDir this)) [])
    as [|top st] eqn:Hfold.
  - cbn. by rewrite norm_step_plain.
  - inversion Hst as [|? ? Htop _]; subst.
    assert (norm_step false (top :: st) ".." = st) as ->.
    { unfold norm_step. cbn [String.eqb orb].
      change (String.eqb ".." "") with false.
      change (String.eqb ".." ".") with false.
      change (String.eqb ".." "..") with true. cbn iota.
      destruct Htop as (_ & _ & Hdd & _).
      by rewrite (proj2 (String.eqb_neq top "..") Hdd). }
    rewrite norm_step_plain by done.
    change st with (tail (top :: st)) at 1.
    cbn [rev tail]. by rewrite removelast_last.
Qed.

End Unvalidated.

Lemma unvalidated_name_escapes_witness :
  FileManager.fileLoc Sample.fm ["srv"; "lab3"] ("../" +:+ "server.txt")
  = removelast (FileManager.baseLoc Sample.fm ["srv"; "lab3"]) ++ ["server.txt"].
Proof.
  apply (unvalidated_name_escapes Sample.fm ["srv"; "lab3"] "server.txt");
    [reflexivity | repeat split; discriminate].
Defined.

(* ===================================================================== *)
(** * Paths that match no endpoint *)
(* ===================================================================== *)

Section NotFound.
Import JS Run ResponseFormatter.

Variable this : FileManager.t.


End NotFound.

